(** * Natural-language search for PostgreSQL: a shallow embedding

    The development follows the two Python sources:
    - [generatequery.py]: intent detection, query synthesis, the query
      executor and the Streamlit search handler;
    - [database.py]: the offline ingestion job.

    A Python [str] is modelled by its UTF-8 encoding, held in the Standard
    Library's [string]: an ASCII character is one byte, any other character
    a lead byte followed by one to three continuation bytes.  No byte of a
    longer character is an ASCII byte, so an ASCII pattern occurs in the
    encoding exactly where it occurs in the text. *)

From Stdlib Require Import Ascii String List Bool Arith ZArith Lia DecimalString.
Import ListNotations.
Local Open Scope list_scope.
Local Open Scope string_scope.

(** ** UTF-8 *)

Module Utf8.

Definition is_ascii (c : ascii) : bool := (nat_of_ascii c <? 128)%nat.

Definition is_continuation (c : ascii) : bool :=
  let n := nat_of_ascii c in ((128 <=? n) && (n <? 192))%nat.

(** The number of continuation bytes a lead byte announces; 0 for a byte
    that leads no longer character. *)
Definition tail_length (c : ascii) : nat :=
  let n := nat_of_ascii c in
  if (n <? 192)%nat then 0
  else if (n <? 224)%nat then 1
  else if (n <? 240)%nat then 2
  else if (n <? 248)%nat then 3
  else 0.

(** [s] begins with [n] continuation bytes. *)
Fixpoint continues (n : nat) (s : string) : bool :=
  match n, s with
  | O, _ => true
  | S _, EmptyString => false
  | S k, String c s' => is_continuation c && continues k s'
  end.

Fixpoint take (n : nat) (s : string) : string :=
  match n, s with
  | S k, String c s' => String c (take k s')
  | _, _ => EmptyString
  end.

Fixpoint drop (n : nat) (s : string) : string :=
  match n, s with
  | S k, String _ s' => drop k s'
  | _, _ => s
  end.

(** [ch] is one character other than ASCII: a lead byte and the
    continuation bytes it announces. *)
Definition one_char (ch : string) : bool :=
  match ch with
  | EmptyString => false
  | String c t =>
      ((0 <? tail_length c) && (String.length t =? tail_length c))%nat
      && continues (tail_length c) t
  end.

(** The text with the given bytes. *)
Definition of_bytes (l : list nat) : string :=
  string_of_list_ascii (map ascii_of_nat l).

(** U+212A, the Kelvin sign. *)
Definition kelvin_sign : string := of_bytes [226; 132; 170].

End Utf8.

(** ** Python string operations *)

Module PyStr.

(** [all(p(c) for c in s)], on the bytes of [s]. *)
Fixpoint all_chars (p : ascii -> bool) (s : string) : bool :=
  match s with
  | EmptyString => true
  | String c s' => p c && all_chars p s'
  end.

(** The ASCII capital letters, and the other bytes. *)
Definition is_upper (c : ascii) : bool :=
  let n := nat_of_ascii c in ((65 <=? n) && (n <=? 90))%nat.

Definition not_upper (c : ascii) : bool := negb (is_upper c).

(** [c.lower()] on ASCII. *)
Definition lower_char (c : ascii) : ascii :=
  let n := nat_of_ascii c in
  if ((65 <=? n) && (n <=? 90))%nat then ascii_of_nat (n + 32) else c.

(** Lowercasing beyond ASCII follows the Unicode tables of the interpreter.
    [lower_other before ch after] is what [(before + ch + after).lower()]
    has in the place of the character [ch], for [ch] one character other
    than ASCII: the Kelvin sign gives [k], and a capital sigma one of the
    two small sigmas, by the letters around it.  Three facts are used: the
    Kelvin sign gives [k], no ASCII capital letter comes out of a
    character, and a result made of ASCII only does not depend on the text
    around. *)
Class Unicode : Type := {
  lower_other : string -> string -> string -> string;
  lower_other_kelvin :
    forall before after, lower_other before Utf8.kelvin_sign after = "k";
  lower_other_no_capital :
    forall before ch after,
      all_chars not_upper ch = true ->
      all_chars not_upper (lower_other before ch after) = true;
  lower_other_ascii :
    forall before ch after before' after',
      Utf8.one_char ch = true ->
      all_chars Utf8.is_ascii (lower_other before ch after) = true ->
      lower_other before' ch after' = lower_other before ch after
}.

Section Lower.

Context `{Unicode}.

(** The scan of [s.lower()]: [before] is the text already passed and [skip]
    counts the continuation bytes of a character already lowered.  An ASCII
    byte is lowered by [lower_char], a longer character by [lower_other]; a
    byte that begins no character is passed on. *)
Fixpoint lower_scan (before : string) (skip : nat) (s : string) : string :=
  match s with
  | EmptyString => EmptyString
  | String c s' =>
      let seen := before ++ String c EmptyString in
      match skip with
      | S k => lower_scan seen k s'
      | O =>
          if Utf8.is_ascii c then String (lower_char c) (lower_scan seen 0 s')
          else
            let n := Utf8.tail_length c in
            if (0 <? n)%nat && Utf8.continues n s'
            then lower_other before (String c (Utf8.take n s')) (Utf8.drop n s')
                 ++ lower_scan seen n s'
            else String c (lower_scan seen 0 s')
      end
  end.

(** [s.lower()] *)
Definition lower (s : string) : string := lower_scan EmptyString 0 s.

End Lower.

(** [s.startswith(p)] *)
Fixpoint startswith (p s : string) : bool :=
  match p, s with
  | EmptyString, _ => true
  | String _ _, EmptyString => false
  | String a p', String b s' => Ascii.eqb a b && startswith p' s'
  end.

(** [sub in s]: substring test. *)
Fixpoint contains (sub s : string) : bool :=
  startswith sub s ||
  match s with
  | EmptyString => false
  | String _ s' => contains sub s'
  end.

(** [s[::-1]] on the bytes. *)
Fixpoint reverse (s : string) : string :=
  match s with
  | EmptyString => EmptyString
  | String c s' => reverse s' ++ String c EmptyString
  end.

(** The characters for which [isspace()] holds, which are those [strip()]
    removes: U+0009..U+000D, U+001C..U+0020, U+0085, U+00A0, U+1680,
    U+2000..U+200A, U+2028, U+2029, U+202F, U+205F and U+3000, each by its
    UTF-8 encoding. *)
Definition whitespace : list string :=
  map Utf8.of_bytes
    [ [9]; [10]; [11]; [12]; [13]; [28]; [29]; [30]; [31]; [32];
      [194; 133]; [194; 160]; [225; 154; 128];
      [226; 128; 128]; [226; 128; 129]; [226; 128; 130]; [226; 128; 131];
      [226; 128; 132]; [226; 128; 133]; [226; 128; 134]; [226; 128; 135];
      [226; 128; 136]; [226; 128; 137]; [226; 128; 138];
      [226; 128; 168]; [226; 128; 169]; [226; 128; 175]; [226; 129; 159];
      [227; 128; 128] ].

(** The length of the member of [L] that [s] begins with, if any. *)
Fixpoint space_len (L : list string) (s : string) : option nat :=
  match L with
  | [] => None
  | w :: L' =>
      if startswith w s then Some (String.length w) else space_len L' s
  end.

(** The scan that drops the members of [L] from the head of [s]: [skip]
    counts the bytes of a member that are still to be dropped. *)
Fixpoint lstrip_scan (L : list string) (skip : nat) (s : string) : string :=
  match s with
  | EmptyString => EmptyString
  | String c s' =>
      match skip with
      | S k => lstrip_scan L k s'
      | O =>
          match space_len L s with
          | Some n => lstrip_scan L (n - 1) s'
          | None => s
          end
      end
  end.

(** [s.lstrip()] *)
Definition lstrip (s : string) : string := lstrip_scan whitespace 0 s.

(** [s.rstrip()]: the same scan from the end of the text, where a
    character shows its bytes in the reverse order. *)
Definition rstrip (s : string) : string :=
  reverse (lstrip_scan (map reverse whitespace) 0 (reverse s)).

(** [s.strip()] *)
Definition strip (s : string) : string := rstrip (lstrip s).

(** [s.count(c)] for a single character [c]. *)
Fixpoint count_char (c : ascii) (s : string) : nat :=
  match s with
  | EmptyString => 0
  | String a s' => (if Ascii.eqb c a then 1 else 0) + count_char c s'
  end.

(** [sep.join(l)] *)
Fixpoint join (sep : string) (l : list string) : string :=
  match l with
  | [] => EmptyString
  | [x] => x
  | x :: l' => x ++ sep ++ join sep l'
  end.

(** Scan of [s.replace(old, new)] for a non-empty [old]: [skip] counts the
    characters of a match that are still to be dropped. *)
Fixpoint replace_scan (old new : string) (skip : nat) (s : string) : string :=
  match s with
  | EmptyString => EmptyString
  | String c s' =>
      match skip with
      | S k => replace_scan old new k s'
      | O =>
          if startswith old s
          then new ++ replace_scan old new (String.length old - 1) s'
          else String c (replace_scan old new 0 s')
      end
  end.

Fixpoint interleave (new s : string) : string :=
  match s with
  | EmptyString => EmptyString
  | String c s' => String c (new ++ interleave new s')
  end.

(** [s.replace(old, new)]: every non-overlapping occurrence, leftmost
    first; an empty [old] matches before every character and at the end. *)
Definition replace (old new s : string) : string :=
  match old with
  | EmptyString => new ++ interleave new s
  | String _ _ => replace_scan old new 0 s
  end.

(** [re.sub(r"```sql|```", "", s)]: at each position the alternatives are
    tried in order; a match is dropped and the scan resumes after it. *)
Definition fence : string := "```".
Definition fence_sql : string := "```sql".

Fixpoint re_sub_fence_scan (skip : nat) (s : string) : string :=
  match s with
  | EmptyString => EmptyString
  | String c s' =>
      match skip with
      | S k => re_sub_fence_scan k s'
      | O =>
          if startswith fence_sql s then re_sub_fence_scan 5 s'
          else if startswith fence s then re_sub_fence_scan 2 s'
          else String c (re_sub_fence_scan 0 s')
      end
  end.

Definition re_sub_fence (s : string) : string := re_sub_fence_scan 0 s.

End PyStr.

(** [r] is [s] with its code-fence markers taken out and nothing else, from
    left to right: a marker [```sql] goes as a whole, any other [```] goes
    alone, and a character that begins no marker stays. *)
Inductive fence_erasure : string -> string -> Prop :=
| erasure_nil : fence_erasure "" ""
| erasure_keep c s r :
    PyStr.startswith "```" (String c s) = false ->
    fence_erasure s r -> fence_erasure (String c s) (String c r)
| erasure_fence s r :
    PyStr.startswith "sql" s = false ->
    fence_erasure s r -> fence_erasure ("```" ++ s) r
| erasure_fence_sql s r : fence_erasure s r -> fence_erasure ("```sql" ++ s) r.

(** [s] is made of white space only. *)
Inductive blank : string -> Prop :=
| blank_nil : blank ""
| blank_app w s : In w PyStr.whitespace -> blank s -> blank (w ++ s).

(** No white space at either end: [s] neither begins nor ends with a
    white-space character. *)
Definition trimmed (s : string) : Prop :=
  forall w x, In w PyStr.whitespace -> s <> w ++ x /\ s <> x ++ w.

(** A text that does not begin in the middle of a character: its first
    byte, if any, is not a continuation byte. *)
Definition clean_start (r : string) : Prop :=
  match r with
  | EmptyString => True
  | String c _ => Utf8.is_continuation c = false
  end.

(** The small ASCII letters. *)
Definition is_small (c : ascii) : bool :=
  let n := nat_of_ascii c in ((97 <=? n) && (n <=? 122))%nat.

(** [word] is [keyword], a word in small ASCII letters, with some of its
    letters written as capitals. *)
Fixpoint capitalisation (word keyword : string) : bool :=
  match word, keyword with
  | EmptyString, EmptyString => true
  | String a word', String b keyword' =>
      (Ascii.eqb a b || Ascii.eqb a (ascii_of_nat (nat_of_ascii b - 32)))
      && capitalisation word' keyword'
  | _, _ => false
  end.

Definition nl : string := String (ascii_of_nat 10) EmptyString.
Definition dq : string := String (ascii_of_nat 34) EmptyString.
Definition lines (l : list string) : string := PyStr.join nl l.

(** [str(n)] for a Python [int]. *)
Definition str_int (n : Z) : string := NilEmpty.string_of_int (Z.to_int n).

(** Any character but the capital S. *)
Definition not_capital_s (c : ascii) : bool := negb (Ascii.eqb "S" c).

(** ** Python floats

    The programs never compute with the embedding values: they are narrowed
    to binary32 and printed.  A float type is therefore any type with these
    two operations; [repr] of a float is made of digits, a point, a sign, an
    exponent mark, or is one of [inf] and [nan]. *)

Definition float_char (c : ascii) : bool :=
  PyStr.contains (String c EmptyString) "0123456789.-+einfa".

(** The characters of a vector literal. *)
Definition literal_char (c : ascii) : bool :=
  float_char c || PyStr.contains (String c EmptyString) "ARY[], :vector".

Class PyFloat (float : Type) : Type := {
  (** an element of [np.array(v, dtype=np.float32).tolist()] *)
  float32 : float -> float;
  (** [repr(x)] *)
  float_repr : float -> string;
  float_repr_alphabet :
    forall x, PyStr.all_chars float_char (float_repr x) = true
}.

(** [repr(v)] for a list of floats, as an f-string prints it. *)
Definition list_repr {float} `{PyFloat float} (v : list float) : string :=
  "[" ++ PyStr.join ", " (map float_repr v) ++ "]".

(** ** Exceptions, events and the interpreter state *)

(** A raised Python exception: whether it derives from [Exception] (and is
    caught by [except Exception]) and its text [str(e)]. *)
Record exn : Type := { exn_is_Exception : bool; exn_text : string }.

Inductive outcome (A : Type) : Type :=
| Return (a : A)
| Raise (e : exn).
Arguments Return {A} a.
Arguments Raise {A} e.

Inductive connection : Type := Connection.

Inductive sqlval : Type :=
| SqlNull
| SqlInt (n : Z)
| SqlText (s : string).

(** A result row: a tuple of column values. *)
Definition row : Type := list sqlval.

Section Programs.

Context {float : Type} `{PyFloat float} `{PyStr.Unicode}.

(** Values bound by the driver to the [%s] of a parameterised statement. *)
Inductive param : Type :=
| ParamVector (v : list float)
| ParamInt (n : Z).

(** What Streamlit is asked to show. *)
Inductive ui_content : Type :=
| UiText (s : string)
| UiRows (rows : list row).

Inductive event : Type :=
| EvEmbed (task_type : option string) (content : string)
| EvGenerate (prompt : string)
| EvConnect (established : bool)
| EvExecute (sql : string) (params : list param)
| EvFetchall
| EvCommit (done : bool)
| EvCursorClose
| EvClose
| EvPrint (msg : string)
| EvStWrite (content : ui_content)
| EvStError (msg : string).

(** The interpreter state: the events so far, oldest first, and the variable
    [conn] of the running program. *)
Record state : Type := { trace : list event; conn : option connection }.

Definition initial : state := {| trace := []; conn := None |}.

(** *** A state and exception monad *)

Definition M (A : Type) : Type := state -> state * outcome A.

Definition ret {A} (a : A) : M A := fun s => (s, Return a).

Definition bind {A B} (m : M A) (k : A -> M B) : M B :=
  fun s =>
    match m s with
    | (s', Return a) => k a s'
    | (s', Raise e) => (s', Raise e)
    end.

Definition raise {A} (e : exn) : M A := fun s => (s, Raise e).

(** The state [s] after the events [es]. *)
Definition log (s : state) (es : list event) : state :=
  {| trace := (trace s ++ es)%list; conn := conn s |}.

Definition emit (e : event) : M unit := fun s => (log s [e], Return tt).

Definition get_conn : M (option connection) := fun s => (s, Return (conn s)).

Definition set_conn (c : option connection) : M unit :=
  fun s => ({| trace := trace s; conn := c |}, Return tt).

(** The result of a call into the outside world. *)
Definition lift {A} (o : outcome A) : M A := fun s => (s, o).

(** [try: m  except Exception as e: h e] *)
Definition try_except {A} (m : M A) (h : exn -> M A) : M A :=
  fun s =>
    match m s with
    | (s', Return a) => (s', Return a)
    | (s', Raise e) => if exn_is_Exception e then h e s' else (s', Raise e)
    end.

(** [try: m  finally: f] *)
Definition try_finally {A} (m : M A) (f : M unit) : M A :=
  fun s =>
    match m s with
    | (s', r) =>
        match f s' with
        | (s'', Return _) => (s'', r)
        | (s'', Raise e) => (s'', Raise e)
        end
    end.

(** [for x in l: body x] *)
Fixpoint for_each {A} (l : list A) (body : A -> M unit) : M unit :=
  match l with
  | [] => ret tt
  | x :: l' => bind (body x) (fun _ => for_each l' body)
  end.

Notation "x <- m ;; k" := (bind m (fun x => k))
  (at level 61, m at next level, right associativity).
Notation "m ;;; k" := (bind m (fun _ => k))
  (at level 61, right associativity).

Definition print (msg : string) : M unit := emit (EvPrint msg).
Definition st_write (c : ui_content) : M unit := emit (EvStWrite c).
Definition st_error (msg : string) : M unit := emit (EvStError msg).

(** *** The outside world

    The collaborators are deterministic oracles; each may raise. *)
Record World : Type := {
  (** [embed_content(model=..., content=..., task_type=...)], then the
      value under the key [embedding], if the response has one *)
  embed_content : option string -> string -> outcome (option (list float));
  (** [model.generate_content(prompt).text] *)
  generate_content : string -> outcome string;
  (** [psycopg2.connect(...)] *)
  connect : outcome connection;
  (** [cur.execute(sql, params)]; on success, what [cur.fetchall()] will
      answer for that statement *)
  cur_execute : string -> list param -> outcome (outcome (list row));
  (** what [cur.fetchall()] answers in the ingestion job: the pairs
      [(id, name)] of the table [products], or its error *)
  products : outcome (list (Z * string));
  (** [conn.commit()] *)
  commit : outcome unit
}.

Variable W : World.

Definition call_embed_content (task_type : option string) (content : string)
  : M (option (list float)) :=
  emit (EvEmbed task_type content) ;;; lift (embed_content W task_type content).

Definition call_generate_content (p : string) : M string :=
  emit (EvGenerate p) ;;; lift (generate_content W p).

(** The event records whether the connection was established. *)
Definition call_connect : M connection :=
  match connect W with
  | Return c => emit (EvConnect true) ;;; ret c
  | Raise e => emit (EvConnect false) ;;; raise e
  end.

Definition call_execute (sql : string) (params : list param)
  : M (outcome (list row)) :=
  emit (EvExecute sql params) ;;; lift (cur_execute W sql params).

Definition call_fetchall {A} (pending : outcome A) : M A :=
  emit EvFetchall ;;; lift pending.

(** The event records whether the transaction was committed. *)
Definition call_commit : M unit :=
  match commit W with
  | Return _ => emit (EvCommit true)
  | Raise e => emit (EvCommit false) ;;; raise e
  end.

(** Closing a cursor or a connection sends nothing to the store and does
    not raise. *)
Definition call_cursor_close : M unit := emit EvCursorClose.
Definition call_close : M unit := emit EvClose.

(** ** generatequery.py *)

Definition schema : string :=
  lines
    [ "The database " ++ dq ++ "vector_db" ++ dq ++ " consists of four tables: departments, ";
      "employees, orders, and products. The " ++ dq ++ "departments" ++ dq ++ " table has (id SERIAL PRIMARY KEY, name VARCHAR(100) NOT NULL). ";
      "The " ++ dq ++ "employees" ++ dq ++ " table has (id SERIAL PRIMARY KEY, name VARCHAR(100) NOT NULL, department_id INT REFERENCES ";
      "departments(id), email VARCHAR(255) UNIQUE NOT NULL, salary DECIMAL(10,2) NOT NULL). ";
      "The " ++ dq ++ "orders" ++ dq ++ " table has (id SERIAL PRIMARY KEY, customer_name VARCHAR(100) NOT NULL, employee_id INT REFERENCES ";
      "employees(id), order_total DECIMAL(10,2) NOT NULL, order_date DATE NOT NULL, embedding vector(768) ";
      "for vector search). The " ++ dq ++ "products" ++ dq ++ " table has (id SERIAL PRIMARY KEY, name VARCHAR(100) NOT NULL, price DECIMAL(10,2) ";
      "NOT NULL, embedding vector(768) for vector search). ";
      EmptyString;
      "Relationships: employees.department_id → departments.id (each employee belongs to a department), ";
      "orders.employee_id → employees.id (each order is handled by an employee). ";
      EmptyString;
      "If the query involves searching for similar products or orders, generate an embedding for the query and use ";
      "vector similarity search: `embedding <=> QUERY_VECTOR`. Combine it with SQL filters if necessary.";
      EmptyString ].

Definition get_text_embedding (text : string) : M (option (list float)) :=
  try_except
    (response <- call_embed_content (Some "retrieval_query") text ;;
     ret response)
    (fun e =>
       print ("Error generating embedding: " ++ exn_text e) ;;;
       ret None).

Definition similarity_keywords : list string :=
  ["similar"; "like"; "related"; "matching"; "relevant"].

(** [any(word in user_input.lower() for word in similarity_keywords)] *)
Definition use_vector_search (user_input : string) : bool :=
  existsb (fun word => PyStr.contains word (PyStr.lower user_input))
          similarity_keywords.

Definition similarity_template : string :=
  "SELECT * FROM products ORDER BY embedding <=> %s LIMIT 5;".

Definition prompt (user_input : string) : string :=
  lines
    [ EmptyString;
      "            Convert this natural language query into a **PostgreSQL SQL query** using the schema provided.";
      "            Your response should **ONLY** contain the SQL query. if that is vector search, please use this syntax  ";
      "        SELECT content, 1 - (embedding <=> %s) AS similarity";
      "        FROM documents";
      "        ORDER BY similarity DESC";
      "        LIMIT %s";
      "    ";
      EmptyString;
      "            User query: " ++ user_input;
      "            Schema: " ++ schema;
      "            " ].

Definition generate_sql_query (user_input : string)
  : M (option string * option (list float)) :=
  try_except
    (if use_vector_search user_input then
       query_embedding <- get_text_embedding user_input ;;
       match query_embedding with
       | None => ret (None, None)
       | Some _ => ret (Some similarity_template, query_embedding)
       end
     else
       response_text <- call_generate_content (prompt user_input) ;;
       ret (Some (PyStr.strip response_text), None))
    (fun e =>
       print ("Error generating SQL query: " ++ exn_text e) ;;;
       ret (None, None)).

(** [f"ARRAY{query_embedding}::vector"] after the narrowing to binary32. *)
Definition embedding_str (query_embedding : list float) : string :=
  "ARRAY" ++ list_repr (map float32 query_embedding) ++ "::vector".

(** The statement sent to the store when an embedding is given. *)
Definition inject (query : string) (query_embedding : list float) (top_k : Z)
  : string :=
  let sql_query := PyStr.replace "%s" (embedding_str query_embedding) query in
  PyStr.replace "LIMIT 5" ("LIMIT " ++ str_int top_k) sql_query.

Definition execute_sql_query
  (query : string) (query_embedding : option (list float)) (top_k : Z)
  : M (option (list row)) :=
  set_conn None ;;;
  try_finally
    (try_except
       (c <- call_connect ;;
        set_conn (Some c) ;;;
        (* [cur = conn.cursor()] leaves no mark; [if query_embedding:]
           holds of a list with at least one component *)
        pending <-
          match query_embedding with
          | Some (x :: v) => call_execute (inject query (x :: v) top_k) []
          | _ => call_execute query []
          end ;;
        results <- call_fetchall pending ;;
        ret (Some results))
       (fun e =>
          print ("Error executing query: " ++ exn_text e) ;;;
          ret None))
    (c <- get_conn ;;
     match c with
     | Some _ => call_close
     | None => ret tt
     end).

(** The defaults of [execute_sql_query(query, query_embedding=None, top_k=1)]. *)
Definition default_top_k : Z := 1.

(** The body run when the Search button is pressed. *)
Definition search (user_input : string) : M unit :=
  r <- generate_sql_query user_input ;;
  let '(sql_query, query_embedding) := r in
  match sql_query with
  | Some (String a q) =>
      (* [if sql_query:] holds of a text with at least one character *)
      let sql_query := PyStr.strip (PyStr.re_sub_fence (String a q)) in
      st_write (UiText ("Generated SQL Query:" ++ nl ++ sql_query)) ;;;
      if PyStr.contains "SELECT" sql_query then
        results <- execute_sql_query sql_query query_embedding default_top_k ;;
        match results with
        (* [if results:] holds of a list with at least one row *)
        | Some (r0 :: rs) => st_write (UiRows (r0 :: rs))
        | _ => st_error "No results found or query execution failed."
        end
      else st_error "Invalid SQL Query!"
  | _ => st_error "Failed to generate a valid SQL query."
  end.

(** ** database.py *)

(** The body of the loop over the fetched rows. *)
Definition ingest_row (r : Z * string) : M unit :=
  let '(product_id, name) := r in
  response <- call_embed_content None name ;;
  match response with
  | None => raise {| exn_is_Exception := true; exn_text := "'embedding'" |}
  | Some embedding =>
      call_execute "UPDATE products SET embedding = %s WHERE id = %s;"
                   [ParamVector embedding; ParamInt product_id] ;;;
      ret tt
  end.

(** The script: nothing is caught, so the first error ends it, be it
    raised by the connection, by a statement, by the fetch, by the embedding
    service or by the commit. *)
Definition ingest : M unit :=
  c <- call_connect ;;
  set_conn (Some c) ;;;
  call_execute "SELECT id, name FROM products;" [] ;;;
  rows <- call_fetchall (products W) ;;
  for_each rows ingest_row ;;;
  call_commit ;;;
  call_cursor_close ;;;
  call_close.

(** ** Observations on a run *)

(** The two branches of [generate_sql_query], named as the design does. *)
Inductive QueryIntent : Type := StructuredQuery | SimilarityQuery.

Definition classify (user_input : string) : QueryIntent :=
  if use_vector_search user_input then SimilarityQuery else StructuredQuery.

(** Calls that reach the store. *)
Definition is_store_call (e : event) : bool :=
  match e with
  | EvConnect _ | EvExecute _ _ | EvFetchall | EvCommit _
  | EvCursorClose | EvClose => true
  | _ => false
  end.

Definition store_calls (t : list event) : list event :=
  filter is_store_call t.

(** The statements handed to [cur.execute], with their parameters. *)
Fixpoint executed (t : list event) : list (string * list param) :=
  match t with
  | [] => []
  | EvExecute sql ps :: t' => (sql, ps) :: executed t'
  | _ :: t' => executed t'
  end.

(** Connections established and not closed yet. *)
Fixpoint open_connections (n : nat) (t : list event) : nat :=
  match t with
  | [] => n
  | EvConnect true :: t' => open_connections (S n) t'
  | EvClose :: t' => open_connections (Nat.pred n) t'
  | _ :: t' => open_connections n t'
  end.

(** What the user sees: the Streamlit calls, in order. *)
Definition is_ui (e : event) : bool :=
  match e with
  | EvStWrite _ | EvStError _ => true
  | _ => false
  end.

Definition ui (t : list event) : list event := filter is_ui t.

(** What is printed on the console. *)
Fixpoint printed (t : list event) : list string :=
  match t with
  | [] => []
  | EvPrint msg :: t' => msg :: printed t'
  | _ :: t' => printed t'
  end.

(** The statement of an embedding write. *)
Definition update_sql : string :=
  "UPDATE products SET embedding = %s WHERE id = %s;".

(** The statement that reads the rows to embed. *)
Definition select_products : string := "SELECT id, name FROM products;".

(** The statement [execute_sql_query] hands to [cur.execute]: the template
    with the embedding injected when the embedding is a non-empty list, the
    template itself otherwise. *)
Definition issued (query : string) (query_embedding : option (list float))
  (top_k : Z) : string :=
  match query_embedding with
  | Some (x :: v) => inject query (x :: v) top_k
  | _ => query
  end.

(** The messages printed and shown. *)
Definition embedding_failure_message (e : exn) : string :=
  "Error generating embedding: " ++ exn_text e.

Definition synthesis_failure_message (e : exn) : string :=
  "Error generating SQL query: " ++ exn_text e.

Definition no_results_message : string :=
  "No results found or query execution failed.".

(** What the executor prints for a caught error. *)
Definition failure_message (e : exn) : string :=
  "Error executing query: " ++ exn_text e.

(** The text the search handler gates and executes for a collaborator
    answer [text]: trimmed by [generate_sql_query], then cleaned. *)
Definition cleaned (text : string) : string :=
  PyStr.strip (PyStr.re_sub_fence (PyStr.strip text)).


(** What the user sees when a structured answer [text] is turned down. *)
Definition rejection (text : string) : list event :=
  match PyStr.strip text with
  | EmptyString => [EvStError "Failed to generate a valid SQL query."]
  | String _ _ =>
      [EvStWrite (UiText ("Generated SQL Query:" ++ nl ++ cleaned text));
       EvStError "Invalid SQL Query!"]
  end.

(** The statements of one call of the executor. *)
Definition statements (sql : string) : list (string * list param) :=
  match connect W with
  | Return _ => [(sql, [])]
  | Raise _ => []
  end.

(** The error the store raises during a call of the executor, if any. *)
Definition store_error (sql : string) : option exn :=
  match connect W with
  | Raise e => Some e
  | Return _ =>
      match cur_execute W sql [] with
      | Raise e => Some e
      | Return (Raise e) => Some e
      | Return (Return _) => None
      end
  end.

(** The rows the store answers, when it answers. *)
Definition store_rows (sql : string) : option (list row) :=
  match connect W with
  | Raise _ => None
  | Return _ =>
      match cur_execute W sql [] with
      | Return (Return rows) => Some rows
      | _ => None
      end
  end.

(** The embedding write of a row, given the vector computed for it. *)
Definition embedding_write (r : Z * string) (v : list float)
  : string * list param :=
  ("UPDATE products SET embedding = %s WHERE id = %s;",
   [ParamVector v; ParamInt (fst r)]).

(** Every call made for the rows succeeds. *)
Definition rows_succeed (rows : list (Z * string)) : Prop :=
  forall product_id name,
    In (product_id, name) rows ->
    exists v pending,
      embed_content W None name = Return (Some v) /\
      cur_execute W update_sql [ParamVector v; ParamInt product_id]
        = Return pending.

(** The error that ends the loop over [rows], if a call of the loop
    raises: the first one. *)
Fixpoint rows_error (rows : list (Z * string)) : option exn :=
  match rows with
  | [] => None
  | (product_id, name) :: rows' =>
      match embed_content W None name with
      | Raise e => Some e
      | Return None =>
          Some {| exn_is_Exception := true; exn_text := "'embedding'" |}
      | Return (Some v) =>
          match cur_execute W update_sql [ParamVector v; ParamInt product_id] with
          | Raise e => Some e
          | Return _ => rows_error rows'
          end
      end
  end.

(** The error that ends the ingestion job, if a call of the job raises:
    the first one, in the order of the calls. *)
Definition ingestion_error : option exn :=
  match connect W with
  | Raise e => Some e
  | Return _ =>
      match cur_execute W select_products [] with
      | Raise e => Some e
      | Return _ =>
          match products W with
          | Raise e => Some e
          | Return rows =>
              match rows_error rows with
              | Some e => Some e
              | None =>
                  match commit W with
                  | Raise e => Some e
                  | Return _ => None
                  end
              end
          end
      end
  end.

(** No call of the ingestion job raises. *)
Definition ingestion_succeeds (rows : list (Z * string)) : Prop :=
  (exists c, connect W = Return c) /\
  (exists pending, cur_execute W select_products [] = Return pending) /\
  products W = Return rows /\
  rows_succeed rows /\
  commit W = Return tt.

(** The calls to the embedding service: task type and content. *)
Fixpoint embedded (t : list event) : list (option string * string) :=
  match t with
  | [] => []
  | EvEmbed task_type content :: t' => (task_type, content) :: embedded t'
  | _ :: t' => embedded t'
  end.

(** The prompts handed to the language model. *)
Fixpoint generated (t : list event) : list string :=
  match t with
  | [] => []
  | EvGenerate p :: t' => p :: generated t'
  | _ :: t' => generated t'
  end.

(** The events of the ingestion loop: an embedding call or a statement. *)
Definition is_row_event (e : event) : bool :=
  match e with
  | EvEmbed _ _ | EvExecute _ _ => true
  | _ => false
  end.

End Programs.

Arguments schema : simpl never.
Arguments prompt : simpl never.
Arguments similarity_template : simpl never.
Arguments inject : simpl never.

(** ** The safety gate as the design words it

    A text passes when it begins, in any letter case, with the keyword of a
    statement that only reads. *)
Definition read_only_keywords : list string :=
  ["SELECT"; "WITH"; "SHOW"; "EXPLAIN"; "VALUES"; "TABLE"].

Definition begins_read_only `{PyStr.Unicode} (text : string) : bool :=
  existsb (fun k => PyStr.startswith (PyStr.lower k) (PyStr.lower text))
          read_only_keywords.

(** [s] occurs in [t]. *)
Definition occurs (sub s : string) : Prop :=
  exists pre post, s = pre ++ sub ++ post.

(** ** Sample floats and worlds

    Four values that binary32 holds exactly, with their Python [repr]. *)
Inductive sample_float : Type := F_zero | F_one | F_half | F_minus_quarter.

Definition sample_repr (x : sample_float) : string :=
  match x with
  | F_zero => "0.0"
  | F_one => "1.0"
  | F_half => "0.5"
  | F_minus_quarter => "-0.25"
  end.

#[export] Instance sample_PyFloat : PyFloat sample_float := {|
  float32 := fun x => x;
  float_repr := sample_repr;
  float_repr_alphabet := fun x =>
    match x with
    | F_zero => eq_refl
    | F_one => eq_refl
    | F_half => eq_refl
    | F_minus_quarter => eq_refl
    end
|}.

(** A sample of the lowercasing beyond ASCII: the Kelvin sign gives [k];
    the other characters are left as they are. *)
#[export] Instance sample_Unicode : PyStr.Unicode := {|
  PyStr.lower_other := fun _ ch _ =>
    if String.eqb ch Utf8.kelvin_sign then "k" else ch;
  PyStr.lower_other_kelvin := fun _ _ => eq_refl;
  PyStr.lower_other_no_capital := fun _ ch _ Hch =>
    match String.eqb ch Utf8.kelvin_sign as b
      return PyStr.all_chars PyStr.not_upper (if b then "k" else ch) = true
    with
    | true => eq_refl
    | false => Hch
    end;
  PyStr.lower_other_ascii := fun _ _ _ _ _ _ _ => eq_refl
|}.

Definition syntax_error : exn :=
  {| exn_is_Exception := true; exn_text := "syntax error at or near DROP" |}.

Definition connection_refused : exn :=
  {| exn_is_Exception := true; exn_text := "connection refused" |}.

Definition keyboard_interrupt : exn :=
  {| exn_is_Exception := false; exn_text := "KeyboardInterrupt" |}.

(** A world whose embedding service answers [embedding], whose language
    model answers [answer] and whose store answers [rows] to a statement. *)
Definition sample_world
  (embedding : outcome (option (list sample_float)))
  (answer : string)
  (link : outcome connection)
  (rows : outcome (outcome (list row)))
  : World :=
  {| embed_content := fun _ _ => embedding;
     generate_content := fun _ => Return answer;
     connect := link;
     cur_execute := fun _ _ => rows;
     products := Return [(1%Z, "chair"); (2%Z, "desk")];
     commit := Return tt |}.

(** The 768 components of the sample embedding. *)
Definition sample_embedding : list sample_float := repeat F_zero 768.

(** A world for the ingestion job: the embedding service knows every name
    but [unknown], for which its response has no embedding. *)
Definition ingestion_world (unknown : string) (rows : list (Z * string))
  : World :=
  {| embed_content := fun _ content =>
       if String.eqb content unknown then Return None
       else Return (Some [F_half; F_one]);
     generate_content := fun _ => Return "";
     connect := Return Connection;
     cur_execute := fun _ _ => Return (Return []);
     products := Return rows;
     commit := Return tt |}.

(** * Sample evaluations *)

Example replace_every_occurrence :
  PyStr.replace "%s" "X" "a %s b %s" = "a X b X".
Proof. reflexivity. Qed.

Example replace_leftmost_first : PyStr.replace "aa" "b" "aaaaa" = "bba".
Proof. reflexivity. Qed.

Example replace_limit_50 :
  PyStr.replace "LIMIT 5" "LIMIT 1" "SELECT 1 LIMIT 50;" = "SELECT 1 LIMIT 10;".
Proof. reflexivity. Qed.

Example strip_both_ends :
  PyStr.strip (nl ++ "  SELECT 1;  " ++ nl) = "SELECT 1;".
Proof. reflexivity. Qed.

Example strip_no_break_space :
  PyStr.strip (Utf8.of_bytes [194; 160] ++ "SELECT 1;"
               ++ Utf8.of_bytes [226; 128; 131]) = "SELECT 1;".
Proof. reflexivity. Qed.

Example strip_keeps_inner_space :
  PyStr.strip ("  a" ++ Utf8.of_bytes [194; 160] ++ "b" ++ nl) =
  "a" ++ Utf8.of_bytes [194; 160] ++ "b".
Proof. reflexivity. Qed.

Example strip_blank : PyStr.strip ("  " ++ nl ++ Utf8.of_bytes [227; 128; 128]) = "".
Proof. reflexivity. Qed.

Example re_sub_fence_sql_first :
  PyStr.re_sub_fence "```sql SELECT 1; ```" = " SELECT 1; ".
Proof. reflexivity. Qed.

Example re_sub_fence_five_ticks : PyStr.re_sub_fence "`````sql`" = "``sql`".
Proof. reflexivity. Qed.

Example classify_similar :
  classify "find similar products to chair" = SimilarityQuery.
Proof. reflexivity. Qed.

Example classify_capitals : classify "I LIKE chairs" = SimilarityQuery.
Proof. reflexivity. Qed.

Example lower_kelvin_sign :
  PyStr.lower ("I LI" ++ Utf8.kelvin_sign ++ "E chairs") = "i like chairs".
Proof. reflexivity. Qed.

Example classify_kelvin_sign :
  classify ("I li" ++ Utf8.kelvin_sign ++ "e chairs") = SimilarityQuery.
Proof. reflexivity. Qed.

Example classify_employees :
  classify "list all employees in sales" = StructuredQuery.
Proof. reflexivity. Qed.

Example ingest_select_refused :
  let W := sample_world (Return None) "" (Return Connection)
             (Raise syntax_error) in
  snd (ingest W initial) = Raise syntax_error /\
  store_calls (trace (fst (ingest W initial))) =
    [EvConnect true; EvExecute "SELECT id, name FROM products;" []].
Proof. split; reflexivity. Qed.

Example str_int_samples : (str_int 0, str_int 1, str_int 120) = ("0", "1", "120").
Proof. reflexivity. Qed.

Example embedding_str_sample :
  embedding_str [F_zero; F_half; F_minus_quarter] = "ARRAY[0.0, 0.5, -0.25]::vector".
Proof. reflexivity. Qed.

(** * Facts about the string operations *)

Section StringFacts.

Lemma str_app_assoc (a b c : string) : (a ++ b) ++ c = a ++ (b ++ c).
Proof. induction a as [|x a IH]; simpl; [reflexivity | now rewrite IH]. Qed.

Lemma str_app_nil_r (a : string) : a ++ "" = a.
Proof. induction a as [|x a IH]; simpl; [reflexivity | now rewrite IH]. Qed.

Lemma startswith_app (p post : string) : PyStr.startswith p (p ++ post) = true.
Proof.
  induction p as [|x p IH]; simpl; [reflexivity|].
  now rewrite Ascii.eqb_refl, IH.
Qed.

Lemma startswith_inv (p s : string) :
  PyStr.startswith p s = true -> exists post, s = p ++ post.
Proof.
  revert s; induction p as [|x p IH]; intros s Hs.
  - now exists s.
  - destruct s as [|y s]; simpl in Hs; [discriminate|].
    apply andb_true_iff in Hs as [Hxy Hp].
    apply Ascii.eqb_eq in Hxy; subst y.
    destruct (IH _ Hp) as [post ->].
    now exists post.
Qed.

Lemma contains_unfold (sub s : string) :
  PyStr.contains sub s =
  PyStr.startswith sub s ||
  match s with
  | EmptyString => false
  | String _ s' => PyStr.contains sub s'
  end.
Proof. destruct s; reflexivity. Qed.

Lemma contains_occurs (sub s : string) :
  PyStr.contains sub s = true <-> occurs sub s.
Proof.
  split.
  - induction s as [|c s IH]; rewrite contains_unfold; intros Hc;
      apply orb_true_iff in Hc as [Hc|Hc]; try discriminate.
    + destruct (startswith_inv _ _ Hc) as [post ->]. now exists "", post.
    + destruct (startswith_inv _ _ Hc) as [post ->]. now exists "", post.
    + destruct (IH Hc) as (pre & post & ->). now exists (String c pre), post.
  - intros (pre & post & ->).
    induction pre as [|c pre IH].
    + rewrite contains_unfold. simpl. now rewrite startswith_app.
    + simpl. rewrite IH. apply orb_true_r.
Qed.

Lemma contains_not_occurs (sub s : string) :
  PyStr.contains sub s = false <-> ~ occurs sub s.
Proof.
  rewrite <- contains_occurs. destruct (PyStr.contains sub s); intuition congruence.
Qed.

Lemma all_chars_app p (a b : string) :
  PyStr.all_chars p (a ++ b) = PyStr.all_chars p a && PyStr.all_chars p b.
Proof.
  induction a as [|x a IH]; simpl; [reflexivity|].
  now rewrite IH, andb_assoc.
Qed.

Lemma all_chars_weaken (p q : ascii -> bool) (s : string) :
  (forall c, p c = true -> q c = true) ->
  PyStr.all_chars p s = true -> PyStr.all_chars q s = true.
Proof.
  intros Hpq. induction s as [|x s IH]; simpl; [reflexivity|].
  intros Hs. apply andb_true_iff in Hs as [Hx Hs].
  now rewrite (Hpq _ Hx), IH.
Qed.

Lemma str_length_app (a b : string) :
  String.length (a ++ b) = String.length a + String.length b.
Proof. induction a as [|x a IH]; simpl; [reflexivity | now rewrite IH]. Qed.

Lemma str_app_inv_head (a b c : string) : a ++ b = a ++ c -> b = c.
Proof.
  induction a as [|x a IH]; simpl; [trivial|]. intros [= E]. now apply IH.
Qed.

Lemma reverse_app (a b : string) :
  PyStr.reverse (a ++ b) = PyStr.reverse b ++ PyStr.reverse a.
Proof.
  induction a as [|x a IH]; simpl.
  - now rewrite str_app_nil_r.
  - now rewrite IH, str_app_assoc.
Qed.

Lemma reverse_involutive (a : string) : PyStr.reverse (PyStr.reverse a) = a.
Proof.
  induction a as [|x a IH]; simpl; [reflexivity|].
  now rewrite reverse_app, IH.
Qed.

Lemma reverse_length (a : string) :
  String.length (PyStr.reverse a) = String.length a.
Proof.
  induction a as [|x a IH]; simpl; [reflexivity|].
  rewrite str_length_app, IH. simpl. lia.
Qed.

End StringFacts.

(** * Lowercasing *)

Section Lowercase.

Import PyStr.
Context `{Unicode}.

Ltac by_bytes c :=
  destruct c as [[|] [|] [|] [|] [|] [|] [|] [|]];
  vm_compute; intros; solve [reflexivity | congruence | auto].

Lemma lower_char_not_upper (c : ascii) : not_upper (lower_char c) = true.
Proof. by_bytes c. Qed.

Lemma other_not_upper (c : ascii) :
  Utf8.is_ascii c = false -> not_upper c = true.
Proof. by_bytes c. Qed.

Lemma continuation_not_upper (c : ascii) :
  Utf8.is_continuation c = true -> not_upper c = true.
Proof. by_bytes c. Qed.

Lemma continuation_not_ascii (c : ascii) :
  Utf8.is_continuation c = true -> Utf8.is_ascii c = false.
Proof. by_bytes c. Qed.

Lemma continuation_leads_nothing (c : ascii) :
  Utf8.is_continuation c = true -> Utf8.tail_length c = 0.
Proof. by_bytes c. Qed.

Lemma continues_take_not_upper (n : nat) (s : string) :
  Utf8.continues n s = true -> all_chars not_upper (Utf8.take n s) = true.
Proof.
  revert s. induction n as [|n IH]; intros [|c s]; cbn; try easy.
  intros Hc. apply andb_true_iff in Hc as [Hc Hs].
  now rewrite (continuation_not_upper _ Hc), IH.
Qed.

Lemma continues_take (n : nat) (s : string) :
  Utf8.continues n s = true ->
  String.length (Utf8.take n s) = n /\ Utf8.continues n (Utf8.take n s) = true.
Proof.
  revert s. induction n as [|n IH]; intros [|c s]; cbn; try easy.
  intros Hc. apply andb_true_iff in Hc as [Hc Hs].
  destruct (IH _ Hs) as [Hl Ht]. now rewrite Hl, Hc, Ht.
Qed.

Lemma continues_app (n : nat) (s post : string) :
  Utf8.continues n s = true ->
  Utf8.continues n (s ++ post) = true /\
  Utf8.take n (s ++ post) = Utf8.take n s.
Proof.
  revert s. induction n as [|n IH]; intros [|c s]; cbn; try easy.
  intros Hc. apply andb_true_iff in Hc as [Hc Hs].
  destruct (IH _ Hs) as [Hl Ht]. now rewrite Hc, Hl, Ht.
Qed.

(** What the scan hands to [lower_other] is one character. *)
Lemma scanned_one_char (c : ascii) (s : string) :
  (0 <? Utf8.tail_length c)%nat && Utf8.continues (Utf8.tail_length c) s = true ->
  Utf8.one_char (String c (Utf8.take (Utf8.tail_length c) s)) = true.
Proof.
  intros Hw. apply andb_true_iff in Hw as [Hn Hc].
  destruct (continues_take _ _ Hc) as [Hl Ht].
  cbn [Utf8.one_char]. now rewrite Hn, Hl, Nat.eqb_refl, Ht.
Qed.

(** Lowercasing leaves no ASCII capital letter. *)
Lemma lower_scan_no_capital (s : string) :
  forall before skip, all_chars not_upper (lower_scan before skip s) = true.
Proof.
  induction s as [|c s IH]; intros before skip; [reflexivity|].
  cbn [lower_scan]. destruct skip as [|k]; [|apply IH].
  destruct (Utf8.is_ascii c) eqn:Ea.
  - cbn [all_chars]. now rewrite lower_char_not_upper, IH.
  - destruct ((0 <? Utf8.tail_length c)%nat
              && Utf8.continues (Utf8.tail_length c) s) eqn:Ew.
    + rewrite all_chars_app, IH, andb_true_r.
      apply lower_other_no_capital. cbn [all_chars].
      rewrite (other_not_upper _ Ea). cbn [andb].
      apply andb_true_iff in Ew as [_ Ew].
      now apply continues_take_not_upper.
    + cbn [all_chars]. now rewrite (other_not_upper _ Ea), IH.
Qed.

Lemma lower_no_capital (s : string) : all_chars not_upper (lower s) = true.
Proof. apply lower_scan_no_capital. Qed.

(** The scan of [pre ++ r] reaches [r] with nothing to skip. *)
Lemma lower_scan_prefix (pre : string) :
  forall before skip r,
    Utf8.continues skip (pre ++ r) = true -> clean_start r ->
    exists X before',
      lower_scan before skip (pre ++ r) = X ++ lower_scan before' 0 r.
Proof.
  induction pre as [|c pre IH]; intros before skip r Hk Hr.
  - exists "", before. destruct skip as [|k]; [reflexivity|].
    destruct r as [|d r]; cbn in Hk, Hr; [discriminate|].
    rewrite Hr in Hk. discriminate.
  - cbn [append lower_scan]. destruct skip as [|k].
    + destruct (Utf8.is_ascii c).
      * destruct (IH (before ++ String c "") 0 r eq_refl Hr) as (X & b' & E).
        exists (String (lower_char c) X), b'. now rewrite E.
      * destruct ((0 <? Utf8.tail_length c)%nat
                  && Utf8.continues (Utf8.tail_length c) (pre ++ r)) eqn:Ew.
        -- apply andb_true_iff in Ew as [_ Ew].
           destruct (IH (before ++ String c "") _ r Ew Hr) as (X & b' & E).
           eexists (_ ++ X), b'. rewrite E. now rewrite str_app_assoc.
        -- destruct (IH (before ++ String c "") 0 r eq_refl Hr) as (X & b' & E).
           exists (String c X), b'. now rewrite E.
    + cbn in Hk. apply andb_true_iff in Hk as [_ Hk].
      exact (IH _ _ r Hk Hr).
Qed.

(** A text whose lowercase is ASCII only has the same lowercase wherever
    it stands. *)
Lemma lower_scan_ascii_image (word : string) :
  forall before before' skip post,
    all_chars Utf8.is_ascii (lower_scan before skip word) = true ->
    exists Y,
      lower_scan before' skip (word ++ post) = lower_scan before skip word ++ Y.
Proof.
  induction word as [|c w IH]; intros before before' skip post Ha.
  - eexists. reflexivity.
  - cbn [append lower_scan] in *. destruct skip as [|k].
    + destruct (Utf8.is_ascii c) eqn:Ec.
      * cbn [all_chars] in Ha. apply andb_true_iff in Ha as [_ Ha].
        destruct (IH _ (before' ++ String c "") 0 post Ha) as [Y E].
        exists Y. now rewrite E.
      * destruct ((0 <? Utf8.tail_length c)%nat
                  && Utf8.continues (Utf8.tail_length c) w) eqn:Ew.
        -- pose proof (scanned_one_char _ _ Ew) as Hone.
           apply andb_true_iff in Ew as [Hn Hc].
           destruct (continues_app _ _ post Hc) as [Hc' Ht].
           rewrite Hn, Hc', Ht. cbn [andb].
           rewrite all_chars_app in Ha. apply andb_true_iff in Ha as [Hi Ha].
           rewrite (lower_other_ascii before _ (Utf8.drop _ w)
                      before' (Utf8.drop _ (w ++ post)) Hone Hi).
           destruct (IH _ (before' ++ String c "") _ post Ha) as [Y E].
           exists Y. now rewrite E, str_app_assoc.
        -- cbn [all_chars] in Ha. rewrite Ec in Ha. discriminate.
    + exact (IH _ _ k post Ha).
Qed.

(** A word whose lowercase is a given ASCII text takes that text to the
    lowercase of whatever contains the word. *)
Lemma lower_word_anywhere (pre word post keyword : string) :
  keyword <> "" ->
  all_chars Utf8.is_ascii keyword = true ->
  lower word = keyword ->
  occurs keyword (lower (pre ++ word ++ post)).
Proof.
  intros Hne Ha Hw. unfold lower in *.
  assert (Hr : clean_start (word ++ post)).
  { destruct word as [|c w]; [now cbn in Hw; subst keyword|].
    cbn [append clean_start].
    destruct (Utf8.is_continuation c) eqn:Ec; [|reflexivity].
    cbn [lower_scan] in Hw.
    rewrite (continuation_not_ascii _ Ec), (continuation_leads_nothing _ Ec) in Hw.
    cbn in Hw. subst keyword. cbn [all_chars] in Ha.
    rewrite (continuation_not_ascii _ Ec) in Ha. discriminate. }
  destruct (lower_scan_prefix pre "" 0 (word ++ post) eq_refl Hr)
    as (X & before' & E).
  rewrite <- Hw in Ha.
  destruct (lower_scan_ascii_image word "" before' 0 post Ha) as [Y E'].
  exists X, Y. now rewrite E, E', Hw.
Qed.

(** [li], the Kelvin sign, [e]: the lowercase is [like]. *)
Lemma lower_kelvin_like :
  lower ("li" ++ Utf8.kelvin_sign ++ "e") = "like".
Proof.
  unfold lower. cbn [append lower_scan Utf8.kelvin_sign Utf8.of_bytes map
                     string_of_list_ascii].
  change (String (ascii_of_nat 226)
            (String (ascii_of_nat 132) (String (ascii_of_nat 170) "")))
    with Utf8.kelvin_sign.
  vm_compute (Utf8.is_ascii _). cbv iota.
  vm_compute (Utf8.tail_length _).
  vm_compute (Utf8.continues _ _). vm_compute (Nat.ltb _ _).
  cbn [andb Utf8.take Utf8.drop].
  change (String (ascii_of_nat 226)
            (String (ascii_of_nat 132) (String (ascii_of_nat 170) "")))
    with Utf8.kelvin_sign.
  rewrite lower_other_kelvin. reflexivity.
Qed.

(** On ASCII text the scan does not look at the text before. *)
Lemma lower_scan_ascii_before (s : string) :
  forall before before',
    all_chars Utf8.is_ascii s = true ->
    lower_scan before 0 s = lower_scan before' 0 s.
Proof.
  induction s as [|c s IH]; intros before before' Ha; [reflexivity|].
  cbn [all_chars] in Ha. apply andb_true_iff in Ha as [Hc Hs].
  cbn [lower_scan]. rewrite Hc. f_equal. now apply IH.
Qed.

Lemma lower_ascii_cons (c : ascii) (s : string) :
  Utf8.is_ascii c = true ->
  lower (String c s) = String (lower_char c) (lower_scan (String c "") 0 s).
Proof. intros Hc. unfold lower. cbn [lower_scan append]. now rewrite Hc. Qed.

(** The lowercase of an ASCII text splits as the text does. *)
Lemma lower_ascii_split (x y : string) :
  forall s,
    all_chars Utf8.is_ascii s = true ->
    lower s = x ++ y ->
    exists s1 s2, s = s1 ++ s2 /\ lower s1 = x /\ lower s2 = y.
Proof.
  induction x as [|a x IH]; intros s Ha E.
  - exists "", s. auto.
  - destruct s as [|c s]; [discriminate|].
    cbn [all_chars] in Ha. apply andb_true_iff in Ha as [Hc Hs].
    rewrite (lower_ascii_cons _ _ Hc) in E. cbn [append] in E.
    injection E as Ea Ex.
    rewrite (lower_scan_ascii_before s _ "" Hs) in Ex.
    destruct (IH s Hs Ex) as (s1 & s2 & -> & E1 & E2).
    exists (String c s1), s2. split; [reflexivity|]. split; [|exact E2].
    rewrite all_chars_app in Hs. apply andb_true_iff in Hs as [Hs1 _].
    rewrite (lower_ascii_cons _ _ Hc), Ea. f_equal.
    rewrite (lower_scan_ascii_before s1 _ "" Hs1). exact E1.
Qed.

Lemma capital_of_small (a b : ascii) :
  is_small b = true ->
  Ascii.eqb a b || Ascii.eqb a (ascii_of_nat (nat_of_ascii b - 32)) = true ->
  Utf8.is_ascii a = true /\ lower_char a = b.
Proof.
  intros Hb Hab. apply orb_true_iff in Hab as [E|E];
    apply Ascii.eqb_eq in E; subst a; revert Hb; by_bytes b.
Qed.

Lemma small_of_lower (a b : ascii) :
  is_small b = true -> lower_char a = b ->
  Ascii.eqb a b || Ascii.eqb a (ascii_of_nat (nat_of_ascii b - 32)) = true.
Proof. intros Hb E. subst b. revert Hb. by_bytes a. Qed.

(** A capitalisation of a word in small letters has that word as its
    lowercase. *)
Lemma lower_capitalisation (keyword : string) :
  forall word,
    all_chars is_small keyword = true ->
    capitalisation word keyword = true ->
    all_chars Utf8.is_ascii word = true /\ lower word = keyword.
Proof.
  induction keyword as [|b keyword IH]; intros [|a word] Hk Hc;
    try discriminate; [now split|].
  cbn [all_chars capitalisation] in *.
  apply andb_true_iff in Hk as [Hb Hk]. apply andb_true_iff in Hc as [Hab Hc].
  destruct (capital_of_small _ _ Hb Hab) as [Ha El].
  destruct (IH word Hk Hc) as [Hw Ew].
  rewrite Ha, Hw. split; [reflexivity|].
  rewrite (lower_ascii_cons _ _ Ha), El. f_equal.
  rewrite (lower_scan_ascii_before word _ "" Hw). exact Ew.
Qed.

(** Conversely, an ASCII word with that lowercase is a capitalisation. *)
Lemma capitalisation_lower (keyword : string) :
  forall word,
    all_chars is_small keyword = true ->
    all_chars Utf8.is_ascii word = true ->
    lower word = keyword ->
    capitalisation word keyword = true.
Proof.
  induction keyword as [|b keyword IH]; intros [|a word] Hk Ha E;
    try discriminate; [reflexivity| |].
  - cbn [all_chars] in Ha. apply andb_true_iff in Ha as [Ha _].
    rewrite (lower_ascii_cons _ _ Ha) in E. discriminate.
  - cbn [all_chars capitalisation] in *.
    apply andb_true_iff in Hk as [Hb Hk]. apply andb_true_iff in Ha as [Ha Hw].
    rewrite (lower_ascii_cons _ _ Ha) in E. injection E as Eb Ew.
    rewrite (small_of_lower _ _ Hb Eb). cbn [andb].
    apply IH; try assumption.
    unfold lower.
    now rewrite (lower_scan_ascii_before word "" (String a "") Hw).
Qed.

End Lowercase.

(** * Intent classification *)

Section Intent.

Context `{PyStr.Unicode}.

Lemma classify_iff (text : string) :
  classify text = SimilarityQuery <->
  exists word, In word similarity_keywords /\ occurs word (PyStr.lower text).
Proof.
  unfold classify, use_vector_search.
  destruct (existsb _ similarity_keywords) eqn:E.
  - split; [intros _ | reflexivity].
    apply existsb_exists in E as (word & Hin & Hc).
    exists word. split; [exact Hin | now apply contains_occurs].
  - split; [discriminate|].
    intros (word & Hin & Ho).
    assert (existsb (fun w => PyStr.contains w (PyStr.lower text))
                    similarity_keywords = true) as E'.
    { apply existsb_exists. exists word. split; [exact Hin|].
      now apply contains_occurs. }
    congruence.
Qed.

(** Each keyword is a word in small ASCII letters. *)
Lemma keyword_small (keyword : string) :
  In keyword similarity_keywords ->
  keyword <> "" /\
  PyStr.all_chars is_small keyword = true /\
  PyStr.all_chars Utf8.is_ascii keyword = true.
Proof.
  intros Hin. cbn in Hin.
  repeat (destruct Hin as [<-|Hin]; [repeat split; discriminate|]).
  destruct Hin.
Qed.

(** A word with a keyword as its lowercase makes a similarity query of any
    text that holds it. *)
Lemma keyword_word_is_similarity (pre word post keyword : string) :
  In keyword similarity_keywords ->
  PyStr.lower word = keyword ->
  classify (pre ++ word ++ post) = SimilarityQuery.
Proof.
  intros Hin Hw. apply classify_iff. exists keyword. split; [exact Hin|].
  destruct (keyword_small _ Hin) as (Hne & _ & Ha).
  now apply lower_word_anywhere.
Qed.

(** The Kelvin sign is a [k] for the classifier, whatever the tables of
    the interpreter say of the other characters. *)
Lemma kelvin_sign_counts_as_k (pre post : string) :
  classify (pre ++ ("li" ++ Utf8.kelvin_sign ++ "e") ++ post) = SimilarityQuery.
Proof.
  apply keyword_word_is_similarity with (keyword := "like").
  - right. now left.
  - apply lower_kelvin_like.
Qed.

(** C3: the similarity branch is taken exactly when the lowercased text
    contains one of the five keywords; a text containing none of them, and
    the empty text in particular, takes the structured branch.  The
    lowercasing is that of letter case: a keyword counts however its
    letters are capitalised and wherever it stands, and on ASCII text the
    similarity queries are exactly the texts that hold a keyword in some
    capitalisation. *)
Theorem classify_similarity_iff_keyword :
  (forall text : string,
     classify text = SimilarityQuery <->
     exists word, In word ["similar"; "like"; "related"; "matching"; "relevant"]
                  /\ occurs word (PyStr.lower text)) /\
  (forall text : string,
     (forall word, In word ["similar"; "like"; "related"; "matching"; "relevant"]
                   -> ~ occurs word (PyStr.lower text)) ->
     classify text = StructuredQuery) /\
  classify "" = StructuredQuery /\
  (forall pre word post keyword : string,
     In keyword ["similar"; "like"; "related"; "matching"; "relevant"] ->
     capitalisation word keyword = true ->
     classify (pre ++ word ++ post) = SimilarityQuery) /\
  (forall text : string,
     PyStr.all_chars Utf8.is_ascii text = true ->
     (classify text = SimilarityQuery <->
      exists keyword pre word post,
        In keyword ["similar"; "like"; "related"; "matching"; "relevant"] /\
        text = pre ++ word ++ post /\
        capitalisation word keyword = true)) /\
  (forall text : string,
     PyStr.all_chars PyStr.not_upper (PyStr.lower text) = true).
Proof.
  assert (Hcap : forall pre word post keyword,
            In keyword similarity_keywords ->
            capitalisation word keyword = true ->
            classify (pre ++ word ++ post) = SimilarityQuery).
  { intros pre word post keyword Hin Hc.
    destruct (keyword_small _ Hin) as (_ & Hs & _).
    destruct (lower_capitalisation keyword word Hs Hc) as [_ Hw].
    now apply keyword_word_is_similarity with (keyword := keyword). }
  split; [exact classify_iff|]. split; [|split; [reflexivity|split; [exact Hcap|split]]].
  - intros text Hnone.
    destruct (classify text) eqn:E; [reflexivity|].
    apply classify_iff in E as (word & Hin & Ho). now destruct (Hnone word Hin).
  - intros text Ha. split.
    + intros Hc. apply classify_iff in Hc as (keyword & Hin & pre' & post' & E).
      destruct (keyword_small _ Hin) as (_ & Hs & _).
      destruct (lower_ascii_split pre' (keyword ++ post') text Ha E)
        as (pre & rest & -> & _ & E2).
      rewrite all_chars_app in Ha. apply andb_true_iff in Ha as [_ Ha].
      destruct (lower_ascii_split keyword post' rest Ha E2)
        as (word & post & -> & E3 & _).
      rewrite all_chars_app in Ha. apply andb_true_iff in Ha as [Ha _].
      exists keyword, pre, word, post. split; [exact Hin|].
      split; [reflexivity|]. now apply capitalisation_lower.
    + intros (keyword & pre & word & post & Hin & -> & Hc).
      now apply Hcap with (keyword := keyword).
  - intros text. apply lower_no_capital.
Qed.

End Intent.

(** [LIKE] in capitals, small letters and a mix of both. *)
Lemma classify_similarity_iff_keyword_witness :
  classify "I LIKE chairs" = SimilarityQuery /\
  classify ("I " ++ "Like" ++ " chairs") = SimilarityQuery /\
  classify "list all employees in sales" = StructuredQuery.
Proof.
  split; [reflexivity|]. split; [|reflexivity].
  exact (proj1 (proj2 (proj2 (proj2 classify_similarity_iff_keyword)))
           "I " "Like" " chairs" "like" (or_intror (or_introl eq_refl)) eq_refl).
Defined.


(** * The query executor *)

Section Executor.

Context {float : Type} `{PyFloat float} `{PyStr.Unicode}.
Variable W : World (float := float).

Ltac run :=
  unfold execute_sql_query, call_connect, call_execute, call_fetchall,
    call_close, try_finally, try_except, print, bind, ret, raise, emit, lift,
    get_conn, set_conn, log;
  cbn [trace conn fst snd].

(** Every run of the executor, by the answers of the store. *)
Lemma execute_run query query_embedding top_k s :
  execute_sql_query W query query_embedding top_k s =
  let sql := issued query query_embedding top_k in
  match connect W with
  | Raise e =>
      if exn_is_Exception e
      then ({| trace := trace s ++ [EvConnect false; EvPrint (failure_message e)];
               conn := None |}, Return None)
      else ({| trace := trace s ++ [EvConnect false]; conn := None |}, Raise e)
  | Return c =>
      match cur_execute W sql [] with
      | Raise e =>
          if exn_is_Exception e
          then ({| trace := trace s ++ [EvConnect true; EvExecute sql [];
                                        EvPrint (failure_message e); EvClose];
                   conn := Some c |}, Return None)
          else ({| trace := trace s ++ [EvConnect true; EvExecute sql []; EvClose];
                   conn := Some c |}, Raise e)
      | Return (Raise e) =>
          if exn_is_Exception e
          then ({| trace := trace s ++ [EvConnect true; EvExecute sql []; EvFetchall;
                                        EvPrint (failure_message e); EvClose];
                   conn := Some c |}, Return None)
          else ({| trace := trace s ++ [EvConnect true; EvExecute sql []; EvFetchall;
                                        EvClose];
                   conn := Some c |}, Raise e)
      | Return (Return rows) =>
          ({| trace := trace s ++ [EvConnect true; EvExecute sql []; EvFetchall;
                                   EvClose];
              conn := Some c |}, Return (Some rows))
      end
  end.
Proof.
  assert (Hexec : forall t c0,
    (match query_embedding with
     | Some (x :: v) => call_execute W (inject query (x :: v) top_k) []
     | _ => call_execute W query []
     end) {| trace := t; conn := c0 |}
    = call_execute W (issued query query_embedding top_k) []
        {| trace := t; conn := c0 |}).
  { intros t c0. destruct query_embedding as [[|x v]|]; reflexivity. }
  unfold failure_message. run.
  destruct (connect W) as [c|e] eqn:Ec; run.
  - rewrite Hexec. run.
    destruct (cur_execute W _ []) as [[rows|e]|e] eqn:Ee; run;
      try destruct (exn_is_Exception e); run;
      repeat rewrite <- app_assoc; reflexivity.
  - destruct (exn_is_Exception e); run;
      repeat rewrite <- app_assoc; reflexivity.
Qed.

End Executor.

(** * The vector literal and its injection *)

Section Injection.

Context {float : Type} `{PyFloat float}.

Lemma all_chars_join p sep (l : list string) :
  PyStr.all_chars p sep = true ->
  Forall (fun x => PyStr.all_chars p x = true) l ->
  PyStr.all_chars p (PyStr.join sep l) = true.
Proof.
  intros Hsep Hl. induction Hl as [|x l Hx Hl IH]; [reflexivity|].
  destruct l as [|y l]; [exact Hx|].
  change (PyStr.join sep (x :: y :: l)) with (x ++ sep ++ PyStr.join sep (y :: l)).
  now rewrite !all_chars_app, Hx, Hsep, IH.
Qed.

Lemma embedding_str_alphabet (v : list float) :
  PyStr.all_chars literal_char (embedding_str v) = true.
Proof.
  unfold embedding_str, list_repr.
  rewrite !all_chars_app. repeat (apply andb_true_iff; split); try reflexivity.
  apply all_chars_join; [reflexivity|].
  apply Forall_forall. intros x Hx.
  apply in_map_iff in Hx as (y & <- & _).
  apply all_chars_weaken with (p := float_char); [|apply float_repr_alphabet].
  intros c Hc. unfold literal_char. now rewrite Hc.
Qed.

(** A scan for [old] walks unchanged over a text that lacks the first
    character of [old]. *)
Lemma replace_scan_skip_free (c0 : ascii) (old' new s t : string) :
  PyStr.all_chars (fun c => negb (Ascii.eqb c0 c)) s = true ->
  PyStr.replace_scan (String c0 old') new 0 (s ++ t) =
  s ++ PyStr.replace_scan (String c0 old') new 0 t.
Proof.
  induction s as [|x s IH]; intros Hs; [reflexivity|].
  simpl in Hs. apply andb_true_iff in Hs as [Hx Hs].
  apply negb_true_iff in Hx.
  simpl. rewrite Hx. simpl. now rewrite IH.
Qed.

Lemma literal_free_of (c0 : ascii) (v : list float) :
  literal_char c0 = false ->
  PyStr.all_chars (fun c => negb (Ascii.eqb c0 c)) (embedding_str v) = true.
Proof.
  intros Hc0.
  apply all_chars_weaken with (p := literal_char); [|apply embedding_str_alphabet].
  intros c Hc. apply negb_true_iff. apply Ascii.eqb_neq. congruence.
Qed.

Lemma replace_scan_no_match (old new : string) (c : ascii) (s : string) :
  PyStr.startswith old (String c s) = false ->
  PyStr.replace_scan old new 0 (String c s) =
  String c (PyStr.replace_scan old new 0 s).
Proof. intros Hn. cbn [PyStr.replace_scan]. now rewrite Hn. Qed.

(** On the similarity template the injection puts the literal in the place
    of the placeholder and the limit in the place of the 5. *)
Lemma inject_similarity_template (v : list float) (top_k : Z) :
  inject similarity_template v top_k =
  "SELECT * FROM products ORDER BY embedding <=> " ++ embedding_str v ++
  " LIMIT " ++ str_int top_k ++ ";".
Proof.
  unfold inject.
  generalize (literal_free_of "L" v eq_refl).
  generalize (embedding_str v) as lit. intros lit Hlit.
  change (" LIMIT " ++ str_int top_k ++ ";")
    with (" " ++ ("LIMIT " ++ str_int top_k) ++ ";").
  generalize ("LIMIT " ++ str_int top_k) as limit. intros limit.
  assert (E1 : PyStr.replace "%s" lit similarity_template =
               "SE" ++ String "L"
                 ((String "E" ("CT * FROM products ORDER BY embedding <=> "
                               ++ lit)) ++ " LIMIT 5;")).
  { vm_compute. reflexivity. }
  rewrite E1. unfold PyStr.replace.
  rewrite (replace_scan_skip_free "L" "IMIT 5" limit "SE" _ eq_refl).
  rewrite replace_scan_no_match by reflexivity.
  rewrite (replace_scan_skip_free "L" "IMIT 5" limit).
  - reflexivity.
  - cbn [PyStr.all_chars]. rewrite all_chars_app, Hlit. reflexivity.
Qed.

End Injection.

(** * Query synthesis and the search handler *)

Section Search.

Context {float : Type} `{PyFloat float} `{PyStr.Unicode}.
Variable W : World (float := float).

Ltac run :=
  unfold search, generate_sql_query, get_text_embedding, call_embed_content,
    call_generate_content, st_write, st_error, try_finally, try_except, print,
    bind, ret, raise, emit, lift;
  cbn [fst snd].

Lemma log_log (s : @state float) (a b : list (@event float)) :
  log (log s a) b = log s (a ++ b)%list.
Proof. unfold log. cbn [trace conn]. now rewrite <- app_assoc. Qed.

Lemma trace_log (s : @state float) (a : list (@event float)) :
  trace (log s a) = (trace s ++ a)%list.
Proof. reflexivity. Qed.

(** The embedding client, by the answer of the embedding service. *)
Lemma get_text_embedding_run text s :
  get_text_embedding W text s =
  let ev := EvEmbed (Some "retrieval_query") text in
  match embed_content W (Some "retrieval_query") text with
  | Return response => (log s [ev], Return response)
  | Raise e =>
      if exn_is_Exception e
      then (log s [ev; EvPrint (embedding_failure_message e)], Return None)
      else (log s [ev], Raise e)
  end.
Proof.
  unfold embedding_failure_message. run.
  destruct (embed_content W _ text) as [r|e]; [reflexivity|].
  destruct (exn_is_Exception e); [|reflexivity].
  now rewrite log_log.
Qed.

(** Synthesis on the similarity branch. *)
Lemma generate_similarity_run user_input s :
  use_vector_search user_input = true ->
  generate_sql_query W user_input s =
  match get_text_embedding W user_input s with
  | (s', Return None) => (s', Return (None, None))
  | (s', Return (Some v)) => (s', Return (Some similarity_template, Some v))
  | (s', Raise e) =>
      if exn_is_Exception e
      then (log s' [EvPrint (synthesis_failure_message e)], Return (None, None))
      else (s', Raise e)
  end.
Proof.
  intros Hu. unfold generate_sql_query. rewrite Hu.
  unfold try_except at 1, bind.
  destruct (get_text_embedding W user_input s) as [s' [[v|]|e]]; try reflexivity.
Qed.

(** Synthesis on the structured branch. *)
Lemma generate_structured_run user_input s :
  use_vector_search user_input = false ->
  generate_sql_query W user_input s =
  let ev := EvGenerate (prompt user_input) in
  match generate_content W (prompt user_input) with
  | Return text => (log s [ev], Return (Some (PyStr.strip text), None))
  | Raise e =>
      if exn_is_Exception e
      then (log s [ev; EvPrint (synthesis_failure_message e)],
            Return (None, None))
      else (log s [ev], Raise e)
  end.
Proof.
  intros Hu. unfold generate_sql_query, synthesis_failure_message. rewrite Hu.
  run.
  destruct (generate_content W (prompt user_input)) as [t|e]; [reflexivity|].
  destruct (exn_is_Exception e); [|reflexivity].
  now rewrite log_log.
Qed.

(** The search handler, by the results of synthesis and execution. *)
Lemma search_run user_input s :
  search W user_input s =
  match generate_sql_query W user_input s with
  | (s1, Raise e) => (s1, Raise e)
  | (s1, Return (Some (String a q), query_embedding)) =>
      let sql := PyStr.strip (PyStr.re_sub_fence (String a q)) in
      let s2 := log s1 [EvStWrite (UiText ("Generated SQL Query:" ++ nl ++ sql))] in
      if PyStr.contains "SELECT" sql then
        match execute_sql_query W sql query_embedding default_top_k s2 with
        | (s3, Raise e) => (s3, Raise e)
        | (s3, Return (Some (r0 :: rs))) =>
            (log s3 [EvStWrite (UiRows (r0 :: rs))], Return tt)
        | (s3, Return _) => (log s3 [EvStError no_results_message], Return tt)
        end
      else (log s2 [EvStError "Invalid SQL Query!"], Return tt)
  | (s1, Return _) =>
      (log s1 [EvStError "Failed to generate a valid SQL query."], Return tt)
  end.
Proof.
  unfold search, bind at 1.
  destruct (generate_sql_query W user_input s) as [s1 [[[[|a q]|] emb]|e]];
    try reflexivity.
  unfold bind, st_write, st_error, emit. cbn [fst snd].
  destruct (PyStr.contains "SELECT" _); [|reflexivity].
  destruct (execute_sql_query W _ emb default_top_k _) as [s3 [[[|r0 rs]|]|e]];
    reflexivity.
Qed.

End Search.

(** * The pipeline short-circuits when no embedding is produced *)

Section EmbeddingFailure.

Context {float : Type} `{PyFloat float} `{PyStr.Unicode}.
Variable W : World (float := float).

Lemma store_calls_app (a b : list (@event float)) :
  store_calls (a ++ b) = (store_calls a ++ store_calls b)%list.
Proof. apply filter_app. Qed.

Lemma executed_app (a b : list (@event float)) :
  executed (a ++ b) = (executed a ++ executed b)%list.
Proof.
  induction a as [|e a IH]; [reflexivity|].
  destruct e; cbn [executed app]; now rewrite ?IH.
Qed.

Lemma classify_similarity (user_input : string) :
  classify user_input = SimilarityQuery -> use_vector_search user_input = true.
Proof. unfold classify. now destruct (use_vector_search user_input). Qed.

Lemma classify_structured (user_input : string) :
  classify user_input = StructuredQuery -> use_vector_search user_input = false.
Proof. unfold classify. now destruct (use_vector_search user_input). Qed.

(** C2: when the query is a similarity query and the embedding client
    returns no vector, the search ends on the failure message and the store
    has not been called: not one more store call than before the search. *)
Theorem embedding_failure_makes_no_store_call
  (user_input : string) (s : @state float) :
  classify user_input = SimilarityQuery ->
  snd (get_text_embedding W user_input s) = Return None ->
  exists s',
    search W user_input s = (s', Return tt) /\
    store_calls (trace s') = store_calls (trace s) /\
    executed (trace s') = executed (trace s) /\
    ui (trace s') =
      (ui (trace s) ++ [EvStError "Failed to generate a valid SQL query."])%list.
Proof.
  intros Hc Hnone. apply classify_similarity in Hc.
  rewrite search_run, (generate_similarity_run W _ _ Hc).
  rewrite get_text_embedding_run in *. cbv zeta in *.
  destruct (embed_content W _ user_input) as [[v|]|e].
  - discriminate.
  - eexists. split; [reflexivity|].
    rewrite log_log, trace_log, store_calls_app, executed_app.
    unfold ui. rewrite filter_app. cbn.
    now rewrite !app_nil_r.
  - destruct (exn_is_Exception e); [|discriminate].
    eexists. split; [reflexivity|].
    rewrite log_log, trace_log, store_calls_app, executed_app.
    unfold ui. rewrite filter_app. cbn.
    now rewrite !app_nil_r.
Qed.

End EmbeddingFailure.

(** The embedding service is unreachable: the client reports no vector and
    the store is left alone. *)
Lemma embedding_failure_makes_no_store_call_witness :
  let W := sample_world (Raise connection_refused) "" (Return Connection)
             (Return (Return [])) in
  classify "find similar products to chair" = SimilarityQuery /\
  snd (get_text_embedding W "find similar products to chair" initial)
    = Return None /\
  exists s',
    search W "find similar products to chair" initial = (s', Return tt) /\
    store_calls (trace s') = [] /\
    executed (trace s') = [] /\
    ui (trace s') = [EvStError "Failed to generate a valid SQL query."].
Proof.
  intros W.
  split; [reflexivity|]. split; [reflexivity|].
  exact (embedding_failure_makes_no_store_call W
           "find similar products to chair" initial eq_refl eq_refl).
Defined.

(** * The gate before execution *)

Section Gate.

Context {float : Type} `{PyFloat float} `{PyStr.Unicode}.
Variable W : World (float := float).

Lemma ui_app (a b : list (@event float)) : ui (a ++ b) = (ui a ++ ui b)%list.
Proof. apply filter_app. Qed.

Lemma gate_rejects (user_input text : string) (s : @state float) :
  classify user_input = StructuredQuery ->
  generate_content W (prompt user_input) = Return text ->
  PyStr.contains "SELECT" (cleaned text) = false ->
  exists s',
    search W user_input s = (s', Return tt) /\
    store_calls (trace s') = store_calls (trace s) /\
    executed (trace s') = executed (trace s) /\
    ui (trace s') = (ui (trace s) ++ rejection text)%list.
Proof.
  intros Hc Ht Hgate. apply classify_structured in Hc.
  rewrite search_run, (generate_structured_run W _ _ Hc), Ht. cbv zeta.
  unfold rejection, cleaned in *.
  destruct (PyStr.strip text) as [|a q].
  - eexists. split; [reflexivity|].
    rewrite log_log, trace_log, store_calls_app, executed_app, ui_app.
    cbn. now rewrite !app_nil_r.
  - rewrite Hgate.
    eexists. split; [reflexivity|].
    rewrite !log_log, trace_log, store_calls_app, executed_app, ui_app.
    cbn [store_calls executed ui filter is_store_call is_ui app].
    now rewrite !app_nil_r.
Qed.

(** C1, as the code has it: a structured answer whose cleaned text does not
    contain [SELECT] (in capitals, anywhere) is turned down with an error
    and nothing is executed; this holds of [DROP TABLE products;]. *)
Theorem select_gate_rejects_without_execution
  (user_input text : string) (s : @state float) :
  classify user_input = StructuredQuery ->
  generate_content W (prompt user_input) = Return text ->
  (PyStr.contains "SELECT" (cleaned text) = false ->
   exists s',
     search W user_input s = (s', Return tt) /\
     store_calls (trace s') = store_calls (trace s) /\
     executed (trace s') = executed (trace s) /\
     ui (trace s') = (ui (trace s) ++ rejection text)%list) /\
  (text = "DROP TABLE products;" ->
   exists s',
     search W user_input s = (s', Return tt) /\
     store_calls (trace s') = store_calls (trace s) /\
     executed (trace s') = executed (trace s) /\
     ui (trace s') =
       (ui (trace s) ++
        [EvStWrite (UiText ("Generated SQL Query:" ++ nl ++ "DROP TABLE products;"));
         EvStError "Invalid SQL Query!"])%list).
Proof.
  intros Hc Ht. split.
  - now apply gate_rejects.
  - intros ->.
    exact (gate_rejects user_input "DROP TABLE products;" s Hc Ht eq_refl).
Qed.

End Gate.

(** The model answers [DROP TABLE products;]: rejected, nothing executed. *)
Lemma select_gate_rejects_without_execution_witness :
  let W := sample_world (Return None) "DROP TABLE products;"
             (Return Connection) (Return (Return [])) in
  classify "remove every product" = StructuredQuery /\
  generate_content W (prompt "remove every product")
    = Return "DROP TABLE products;" /\
  exists s',
    search W "remove every product" initial = (s', Return tt) /\
    store_calls (trace s') = [] /\
    executed (trace s') = [] /\
    ui (trace s') =
      [EvStWrite (UiText ("Generated SQL Query:" ++ nl ++ "DROP TABLE products;"));
       EvStError "Invalid SQL Query!"].
Proof.
  intros W.
  split; [reflexivity|]. split; [reflexivity|].
  exact (proj2 (select_gate_rejects_without_execution W
                  "remove every product" "DROP TABLE products;" initial
                  eq_refl eq_refl) eq_refl).
Defined.

(** A text that begins with [DROP] and mentions [SELECT] later does not begin
    with a read-only keyword, yet it passes the gate and is executed. *)
Lemma read_only_gate_counterexample :
  let text := "DROP TABLE products; SELECT 1;" in
  let W := sample_world (Return None) text (Return Connection)
             (Return (Return [])) in
  classify "remove every product" = StructuredQuery /\
  generate_content W (prompt "remove every product") = Return text /\
  begins_read_only (cleaned text) = false /\
  executed (trace (fst (search W "remove every product" initial)))
    = [("DROP TABLE products; SELECT 1;", [])].
Proof. vm_compute. repeat split. Qed.

(** * Cleaning the collaborator's answer *)

Section Cleaning.

Import PyStr.

Lemma fence_sql_is_fence (s : string) :
  startswith fence_sql s = true -> startswith fence s = true.
Proof.
  intros Hs. destruct (startswith_inv _ _ Hs) as [post ->].
  reflexivity.
Qed.

Lemma scan_fence_sql (post : string) :
  re_sub_fence_scan 0 ("```sql" ++ post) = re_sub_fence_scan 0 post.
Proof. reflexivity. Qed.

Lemma scan_fence (post : string) :
  startswith fence_sql ("```" ++ post) = false ->
  re_sub_fence_scan 0 ("```" ++ post) = re_sub_fence_scan 0 post.
Proof.
  intros Hn. change ("```" ++ post) with (String "`" ("``" ++ post)) in *.
  cbn [re_sub_fence_scan]. rewrite Hn. reflexivity.
Qed.

Lemma scan_emit (c : ascii) (s : string) :
  startswith fence (String c s) = false ->
  re_sub_fence_scan 0 (String c s) = String c (re_sub_fence_scan 0 s).
Proof.
  intros Hn. cbn [re_sub_fence_scan]. rewrite Hn.
  destruct (startswith fence_sql (String c s)) eqn:E; [|reflexivity].
  apply fence_sql_is_fence in E. congruence.
Qed.

(** The scan, one step at a time. *)
Lemma scan_cases (s : string) :
  (s = "" /\ re_sub_fence_scan 0 s = "") \/
  (exists post, s = "```sql" ++ post /\
                re_sub_fence_scan 0 s = re_sub_fence_scan 0 post) \/
  (exists post, s = "```" ++ post /\ startswith "sql" post = false /\
                re_sub_fence_scan 0 s = re_sub_fence_scan 0 post) \/
  (exists c s', s = String c s' /\ startswith fence s = false /\
                re_sub_fence_scan 0 s = String c (re_sub_fence_scan 0 s')).
Proof.
  destruct s as [|c s']; [now left|]. right.
  destruct (startswith fence_sql (String c s')) eqn:Esql.
  - left. destruct (startswith_inv _ _ Esql) as [post ->].
    exists post. split; [reflexivity | apply scan_fence_sql].
  - right. destruct (startswith fence (String c s')) eqn:Ef.
    + left. destruct (startswith_inv _ _ Ef) as [post E]. rewrite E in *.
      exists post. split; [reflexivity|]. split; [exact Esql|].
      now apply scan_fence.
    + right. exists c, s'. split; [reflexivity|].
      split; [reflexivity | now apply scan_emit].
Qed.

Lemma length_fence_sql (post : string) :
  String.length ("```sql" ++ post) = 6 + String.length post.
Proof. reflexivity. Qed.

Lemma length_fence (post : string) :
  String.length ("```" ++ post) = 3 + String.length post.
Proof. reflexivity. Qed.

(** The substitution takes out fence markers and nothing else. *)
Lemma re_sub_fence_erasure (s : string) : fence_erasure s (re_sub_fence s).
Proof.
  unfold re_sub_fence.
  remember (String.length s) as n eqn:Hn.
  assert (Hle : String.length s <= n) by lia. clear Hn.
  revert s Hle. induction n as [|n IH]; intros s Hle.
  - destruct s; [constructor | cbn in Hle; lia].
  - destruct (scan_cases s) as [[-> ->]|[(post & -> & ->)|[(post & -> & Hs & ->)
      |(c & s' & -> & Hf & ->)]]].
    + constructor.
    + apply erasure_fence_sql, IH. rewrite length_fence_sql in Hle. lia.
    + apply erasure_fence; [exact Hs|]. apply IH.
      rewrite length_fence in Hle. lia.
    + apply erasure_keep; [exact Hf|]. apply IH. cbn in Hle. lia.
Qed.

(** The erasure is determined: the text left is the one of the
    substitution. *)
Lemma fence_erasure_unique (s r : string) :
  fence_erasure s r -> r = re_sub_fence s.
Proof.
  unfold re_sub_fence.
  induction 1 as [|c s r Hf _ IH|s r Hs _ IH|s r _ IH].
  - reflexivity.
  - rewrite (scan_emit _ _ Hf). now rewrite IH.
  - rewrite scan_fence by exact Hs. exact IH.
  - rewrite scan_fence_sql. exact IH.
Qed.

Lemma scan_keeps_no_tick (s : string) :
  startswith "`" s = false -> startswith "`" (re_sub_fence_scan 0 s) = false.
Proof.
  intros Hs. destruct s as [|c s]; [reflexivity|].
  rewrite scan_emit.
  - exact Hs.
  - cbn [startswith fence] in *.
    destruct (Ascii.eqb "`" c); [discriminate | reflexivity].
Qed.

Lemma scan_keeps_no_two_ticks (s : string) :
  startswith "``" s = false -> startswith "``" (re_sub_fence_scan 0 s) = false.
Proof.
  intros Hs. destruct s as [|c s]; [reflexivity|].
  rewrite scan_emit.
  - cbn [startswith] in *. destruct (Ascii.eqb "`" c); [|reflexivity].
    cbn [andb] in *. now apply scan_keeps_no_tick.
  - cbn [startswith fence] in *. destruct (Ascii.eqb "`" c); [|reflexivity].
    cbn [andb] in *. destruct s as [|d s]; [reflexivity|].
    cbn [startswith] in *. destruct (Ascii.eqb "`" d); [|reflexivity].
    cbn [andb] in *. destruct s; [reflexivity | discriminate].
Qed.

Lemma scan_keeps_no_fence (s : string) :
  startswith fence s = false -> startswith fence (re_sub_fence_scan 0 s) = false.
Proof.
  intros Hs. destruct s as [|c s]; [reflexivity|].
  rewrite scan_emit by exact Hs.
  cbn [startswith fence] in *. destruct (Ascii.eqb "`" c); [|reflexivity].
  cbn [andb] in *. now apply scan_keeps_no_two_ticks.
Qed.

(** After the substitution no fence marker is left. *)
Lemma re_sub_fence_no_fence (s : string) :
  contains fence (re_sub_fence s) = false.
Proof.
  unfold re_sub_fence.
  remember (String.length s) as n eqn:Hn.
  assert (Hle : String.length s <= n) by lia. clear Hn.
  revert s Hle. induction n as [|n IH]; intros s Hle.
  - destruct s; [reflexivity | cbn in Hle; lia].
  - destruct (scan_cases s) as [[-> ->]|[(post & -> & ->)|[(post & -> & _ & ->)
      |(c & s' & -> & Hf & E)]]].
    + reflexivity.
    + apply IH. rewrite length_fence_sql in Hle. lia.
    + apply IH. rewrite length_fence in Hle. lia.
    + rewrite contains_unfold, (scan_keeps_no_fence _ Hf), E.
      cbn [orb]. apply IH. cbn in Hle. lia.
Qed.

End Cleaning.

Section Trimming.

Import PyStr.

Lemma space_len_some (L : list string) (s : string) (n : nat) :
  space_len L s = Some n ->
  exists w x, In w L /\ s = w ++ x /\ n = String.length w.
Proof.
  induction L as [|w L IH]; cbn [space_len]; [discriminate|].
  destruct (startswith w s) eqn:E.
  - intros [= <-]. destruct (startswith_inv _ _ E) as [x ->].
    exists w, x. split; [now left | split; reflexivity].
  - intros Hn. destruct (IH Hn) as (w' & x & Hin & Hs & Hl).
    exists w', x. split; [now right | split; assumption].
Qed.

Lemma space_len_none (L : list string) (s : string) :
  space_len L s = None <-> (forall w x, In w L -> s <> w ++ x).
Proof.
  induction L as [|w L IH]; cbn [space_len].
  - split; [intros _ w x [] | reflexivity].
  - destruct (startswith w s) eqn:E.
    + split; [discriminate|]. intros Hs.
      destruct (startswith_inv _ _ E) as [x Ex].
      now destruct (Hs w x (or_introl eq_refl)).
    + rewrite IH. split.
      * intros Hs w' x [<-|Hin]; [|now apply Hs].
        intros ->. now rewrite startswith_app in E.
      * intros Hs w' x Hin. apply Hs. now right.
Qed.

Lemma lstrip_scan_skip (L : list string) (w x : string) :
  lstrip_scan L (String.length w) (w ++ x) = lstrip_scan L 0 x.
Proof.
  induction w as [|c w IH]; [now destruct x|]. exact IH.
Qed.

(** One member of [L] at the head is dropped. *)
Lemma lstrip_scan_member (L : list string) (w x : string) :
  w <> "" ->
  space_len L (w ++ x) = Some (String.length w) ->
  lstrip_scan L 0 (w ++ x) = lstrip_scan L 0 x.
Proof.
  intros Hw Hs. destruct w as [|c w]; [congruence|].
  cbn [append] in *. cbn [lstrip_scan]. rewrite Hs.
  cbn [String.length Nat.sub]. rewrite Nat.sub_0_r. apply lstrip_scan_skip.
Qed.

Lemma lstrip_scan_fixed (L : list string) (s : string) :
  space_len L s = None -> lstrip_scan L 0 s = s.
Proof. intros Hs. destruct s as [|c s]; [reflexivity|]. cbn. now rewrite Hs. Qed.

(** What the scan drops is a sequence of members of [L], and what it
    leaves begins with none. *)
Lemma lstrip_scan_spec (L : list string) :
  Forall (fun w => w <> "") L ->
  forall s,
    exists ws,
      Forall (fun w => In w L) ws /\
      s = fold_right append "" ws ++ lstrip_scan L 0 s /\
      space_len L (lstrip_scan L 0 s) = None.
Proof.
  intros HL s.
  remember (String.length s) as n eqn:Hn.
  assert (Hle : String.length s <= n) by lia. clear Hn.
  revert s Hle. induction n as [|n IH]; intros s Hle.
  - destruct s; [|cbn in Hle; lia].
    exists []. split; [constructor|]. split; [reflexivity|].
    apply space_len_none. intros w x Hin E.
    destruct w; [|discriminate].
    now apply (proj1 (Forall_forall _ _) HL "").
  - destruct (space_len L s) as [m|] eqn:Es.
    + destruct (space_len_some _ _ _ Es) as (w & x & Hin & -> & ->).
      assert (Hw : w <> "") by now apply (proj1 (Forall_forall _ _) HL).
      rewrite (lstrip_scan_member L w x Hw Es).
      destruct (IH x) as (ws & Hws & Hx & Hnone).
      { rewrite str_length_app in Hle. destruct w; [congruence|].
        cbn in Hle. lia. }
      exists (w :: ws). split; [now constructor|]. split; [|exact Hnone].
      cbn [fold_right]. rewrite str_app_assoc. now rewrite <- Hx.
    + exists []. rewrite (lstrip_scan_fixed _ _ Es).
      split; [constructor|]. split; [reflexivity | exact Es].
Qed.

Lemma whitespace_nonempty : Forall (fun w => w <> "") whitespace.
Proof. repeat constructor; discriminate. Qed.

Lemma reversed_whitespace_nonempty :
  Forall (fun w => w <> "") (map reverse whitespace).
Proof. repeat constructor; discriminate. Qed.

Lemma blank_app_blank (a b : string) : blank a -> blank b -> blank (a ++ b).
Proof.
  induction 1 as [|w a Hw Ha IH]; intros Hb; [exact Hb|].
  rewrite str_app_assoc. constructor; auto.
Qed.

Lemma blank_one (w : string) : In w whitespace -> blank w.
Proof.
  intros Hw. rewrite <- (str_app_nil_r w). constructor; [exact Hw | constructor].
Qed.

Lemma blank_concat (ws : list string) :
  Forall (fun w => In w whitespace) ws -> blank (fold_right append "" ws).
Proof. induction 1; cbn [fold_right]; constructor; assumption. Qed.

Lemma blank_reverse_concat (ws : list string) :
  Forall (fun w => In w (map reverse whitespace)) ws ->
  blank (reverse (fold_right append "" ws)).
Proof.
  induction 1 as [|w' ws Hw Hws IH]; cbn [fold_right]; [constructor|].
  rewrite reverse_app. apply blank_app_blank; [exact IH|].
  apply in_map_iff in Hw as (w & <- & Hw).
  rewrite reverse_involutive. now apply blank_one.
Qed.

(** [lstrip] drops white space, and what it leaves begins with none. *)
Lemma lstrip_spec (s : string) :
  exists b,
    blank b /\ s = b ++ lstrip s /\
    (forall w x, In w whitespace -> lstrip s <> w ++ x).
Proof.
  destruct (lstrip_scan_spec whitespace whitespace_nonempty s)
    as (ws & Hws & Hs & Hnone).
  exists (fold_right append "" ws).
  split; [now apply blank_concat|]. split; [exact Hs|].
  now apply space_len_none.
Qed.

(** [rstrip] drops white space, and what it leaves ends with none. *)
Lemma rstrip_spec (s : string) :
  exists b,
    blank b /\ s = rstrip s ++ b /\
    (forall w x, In w whitespace -> rstrip s <> x ++ w).
Proof.
  destruct (lstrip_scan_spec (map reverse whitespace)
              reversed_whitespace_nonempty (reverse s))
    as (ws & Hws & Hs & Hnone).
  exists (reverse (fold_right append "" ws)).
  split; [now apply blank_reverse_concat|]. split.
  - unfold rstrip. rewrite <- reverse_app, <- Hs.
    now rewrite reverse_involutive.
  - intros w x Hw E. unfold rstrip in E.
    apply (f_equal reverse) in E.
    rewrite reverse_involutive, reverse_app in E.
    apply (proj1 (space_len_none _ _) Hnone (reverse w) (reverse x)); [|exact E].
    now apply in_map.
Qed.

(** [strip] drops white space at both ends, and the rest is trimmed. *)
Lemma strip_spec (s : string) :
  exists b1 b2,
    blank b1 /\ blank b2 /\ s = b1 ++ strip s ++ b2 /\ trimmed (strip s).
Proof.
  destruct (lstrip_spec s) as (b1 & Hb1 & E1 & Hl).
  destruct (rstrip_spec (lstrip s)) as (b2 & Hb2 & E2 & Hr).
  exists b1, b2. split; [exact Hb1|]. split; [exact Hb2|]. split.
  - unfold strip. now rewrite <- E2.
  - intros w x Hw. split; [|now apply Hr].
    intros E. apply (Hl w (x ++ b2) Hw).
    rewrite E2. unfold strip in E. rewrite E. apply str_app_assoc.
Qed.

Lemma strip_trimmed (s : string) : trimmed (strip s).
Proof. now destruct (strip_spec s) as (b1 & b2 & _ & _ & _ & Ht). Qed.

Lemma lstrip_suffix (s : string) : exists ws, s = ws ++ lstrip s.
Proof. destruct (lstrip_spec s) as (b & _ & E & _). now exists b. Qed.

Lemma rstrip_prefix (s : string) : exists ws, s = rstrip s ++ ws.
Proof. destruct (rstrip_spec s) as (b & _ & E & _). now exists b. Qed.

Lemma occurs_strip (sub s : string) : occurs sub (strip s) -> occurs sub s.
Proof.
  intros (pre & post & E). unfold strip in E.
  destruct (lstrip_suffix s) as [ws1 E1].
  destruct (rstrip_prefix (lstrip s)) as [ws2 E2].
  exists (ws1 ++ pre), (post ++ ws2).
  rewrite E1 at 1. rewrite E2 at 1. rewrite E.
  now rewrite !str_app_assoc.
Qed.

Lemma lstrip_trimmed (t : string) :
  (forall w x, In w whitespace -> t <> w ++ x) -> lstrip t = t.
Proof. intros Ht. apply lstrip_scan_fixed. now apply space_len_none. Qed.

Lemma rstrip_trimmed (t : string) :
  (forall w x, In w whitespace -> t <> x ++ w) -> rstrip t = t.
Proof.
  intros Ht. unfold rstrip. rewrite lstrip_scan_fixed.
  - apply reverse_involutive.
  - apply space_len_none. intros w' x Hw E.
    apply in_map_iff in Hw as (w & <- & Hw).
    apply (Ht w (reverse x) Hw).
    rewrite <- (reverse_involutive t), E, reverse_app.
    now rewrite reverse_involutive.
Qed.

(** A trimmed text is left as it is. *)
Lemma strip_fixed (t : string) : trimmed t -> strip t = t.
Proof.
  intros Ht. unfold strip.
  rewrite lstrip_trimmed by (intros w x Hw; apply (Ht w x Hw)).
  apply rstrip_trimmed. intros w x Hw. apply (Ht w x Hw).
Qed.

Lemma strip_idempotent (s : string) : strip (strip s) = strip s.
Proof. apply strip_fixed, strip_trimmed. Qed.

(** Each white-space character is found at the head of a text that begins
    with it: no character of the list begins another. *)
Lemma space_len_whitespace (w x : string) :
  In w whitespace ->
  space_len whitespace (w ++ x) = Some (String.length w).
Proof.
  intros Hw. cbv in Hw.
  repeat (destruct Hw as [<-|Hw]; [reflexivity|]). destruct Hw.
Qed.

Lemma space_len_reversed_whitespace (w x : string) :
  In w whitespace ->
  space_len (map reverse whitespace) (reverse w ++ x)
  = Some (String.length (reverse w)).
Proof.
  intros Hw. cbv in Hw.
  repeat (destruct Hw as [<-|Hw]; [reflexivity|]). destruct Hw.
Qed.

Lemma whitespace_member_nonempty (w : string) : In w whitespace -> w <> "".
Proof. apply (proj1 (Forall_forall _ _) whitespace_nonempty). Qed.

(** White space before a text does not count. *)
Lemma lstrip_blank (b y : string) : blank b -> lstrip (b ++ y) = lstrip y.
Proof.
  induction 1 as [|w b Hw Hb IH]; [reflexivity|].
  unfold lstrip in *. rewrite str_app_assoc.
  rewrite lstrip_scan_member; [exact IH | | ].
  - now apply whitespace_member_nonempty.
  - now apply space_len_whitespace.
Qed.

(** White space after a text does not count. *)
Lemma rstrip_blank (y b : string) : blank b -> rstrip (y ++ b) = rstrip y.
Proof.
  intros Hb. unfold rstrip. f_equal. rewrite reverse_app.
  generalize (reverse y) as z.
  induction Hb as [|w b Hw Hb IH]; intros z; [reflexivity|].
  rewrite reverse_app, str_app_assoc, IH.
  apply lstrip_scan_member.
  - intros E. apply (whitespace_member_nonempty w Hw).
    now rewrite <- (reverse_involutive w), E.
  - now apply space_len_reversed_whitespace.
Qed.

(** A text between two backquotes is what [strip] leaves of it, whatever
    white space stands around. *)
Lemma strip_between_ticks (b1 y b2 : string) :
  blank b1 -> blank b2 ->
  strip (b1 ++ String "`" (y ++ "`") ++ b2) = String "`" (y ++ "`").
Proof.
  intros Hb1 Hb2. unfold strip. rewrite (lstrip_blank _ _ Hb1).
  replace (lstrip (String "`" (y ++ "`") ++ b2))
    with (String "`" (y ++ "`") ++ b2) by reflexivity.
  rewrite (rstrip_blank _ _ Hb2).
  unfold rstrip. cbn [reverse]. rewrite reverse_app. cbn [reverse append].
  rewrite lstrip_scan_fixed by reflexivity.
  cbn [reverse]. now rewrite reverse_app, reverse_involutive.
Qed.

(** The cleaned text holds no fence marker. *)
Lemma cleaned_no_fence (text : string) : contains "```" (cleaned text) = false.
Proof.
  apply contains_not_occurs. intros Ho.
  apply occurs_strip in Ho. apply contains_occurs in Ho.
  change "```" with fence in Ho.
  now rewrite re_sub_fence_no_fence in Ho.
Qed.

(** The scan walks unchanged over a text without backquote. *)
Lemma scan_tick_free (body t : string) :
  contains "`" body = false ->
  re_sub_fence_scan 0 (body ++ t) = body ++ re_sub_fence_scan 0 t.
Proof.
  induction body as [|c body IH]; [reflexivity|].
  rewrite contains_unfold. intros Hc.
  apply orb_false_iff in Hc as [Hs Hc].
  cbn [append]. rewrite scan_emit.
  - now rewrite (IH Hc).
  - cbn [startswith fence] in *. destruct (Ascii.eqb "`" c); [|reflexivity].
    destruct body; discriminate.
Qed.

(** An answer that is one fenced block: the cleaned text is the body of
    the block, trimmed. *)
Lemma cleaned_fenced_sql (b1 body b2 : string) :
  blank b1 -> blank b2 -> contains "`" body = false ->
  cleaned (b1 ++ "```sql" ++ body ++ "```" ++ b2) = strip body.
Proof.
  intros Hb1 Hb2 Hbody. unfold cleaned.
  replace (b1 ++ "```sql" ++ body ++ "```" ++ b2)
    with (b1 ++ String "`" (("``sql" ++ body ++ "``") ++ "`") ++ b2).
  - rewrite (strip_between_ticks _ _ _ Hb1 Hb2).
    replace (String "`" (("``sql" ++ body ++ "``") ++ "`"))
      with ("```sql" ++ body ++ "```")
      by (cbn [append]; now rewrite !str_app_assoc).
    unfold re_sub_fence. rewrite scan_fence_sql, (scan_tick_free _ _ Hbody).
    cbn [re_sub_fence_scan startswith fence fence_sql Ascii.eqb Bool.eqb andb].
    now rewrite str_app_nil_r.
  - cbn [append]. now rewrite !str_app_assoc.
Qed.

Lemma cleaned_fenced (b1 body b2 : string) :
  blank b1 -> blank b2 -> contains "`" body = false ->
  startswith "sql" body = false ->
  cleaned (b1 ++ "```" ++ body ++ "```" ++ b2) = strip body.
Proof.
  intros Hb1 Hb2 Hbody Hsql. unfold cleaned.
  replace (b1 ++ "```" ++ body ++ "```" ++ b2)
    with (b1 ++ String "`" (("``" ++ body ++ "``") ++ "`") ++ b2).
  - rewrite (strip_between_ticks _ _ _ Hb1 Hb2).
    replace (String "`" (("``" ++ body ++ "``") ++ "`"))
      with ("```" ++ body ++ "```")
      by (cbn [append]; now rewrite !str_app_assoc).
    unfold re_sub_fence. rewrite scan_fence.
    2:{ clear - Hsql.
        destruct body as [|a [|b [|c body]]]; cbn [append startswith] in *;
          try exact Hsql;
          repeat match goal with
                 | |- context [Ascii.eqb ?x ?y] => destruct (Ascii.eqb x y)
                 end; reflexivity. }
    rewrite (scan_tick_free _ _ Hbody).
    cbn [re_sub_fence_scan startswith fence fence_sql Ascii.eqb Bool.eqb andb].
    now rewrite str_app_nil_r.
  - cbn [append]. now rewrite !str_app_assoc.
Qed.

End Trimming.

(** * What a search executes and shows *)

Section Observations.

Context {float : Type} `{PyFloat float} `{PyStr.Unicode}.
Variable W : World (float := float).

Lemma executed_execute query query_embedding top_k (s : @state float) :
  executed (trace (fst (execute_sql_query W query query_embedding top_k s))) =
  (executed (trace s) ++ statements W (issued query query_embedding top_k))%list.
Proof.
  rewrite execute_run. cbv zeta. unfold statements.
  destruct (connect W) as [c|e].
  - destruct (cur_execute W _ []) as [[rows|e]|e];
      try destruct (exn_is_Exception e);
      cbn [fst trace]; now rewrite executed_app.
  - destruct (exn_is_Exception e);
      cbn [fst trace]; rewrite executed_app; cbn; now rewrite app_nil_r.
Qed.

Lemma ui_execute query query_embedding top_k (s : @state float) :
  ui (trace (fst (execute_sql_query W query query_embedding top_k s))) =
  ui (trace s).
Proof.
  rewrite execute_run. cbv zeta.
  destruct (connect W) as [c|e].
  - destruct (cur_execute W _ []) as [[rows|e]|e];
      try destruct (exn_is_Exception e);
      cbn [fst trace]; rewrite ui_app; cbn; now rewrite app_nil_r.
  - destruct (exn_is_Exception e);
      cbn [fst trace]; rewrite ui_app; cbn; now rewrite app_nil_r.
Qed.

(** The statements of a search whose synthesis gave the text [raw] and the
    embedding [query_embedding]. *)
Lemma executed_after_synthesis user_input raw query_embedding
  (s s1 : @state float) :
  generate_sql_query W user_input s = (s1, Return (Some raw, query_embedding)) ->
  executed (trace s1) = executed (trace s) ->
  let sql := PyStr.strip (PyStr.re_sub_fence raw) in
  executed (trace (fst (search W user_input s))) =
  (executed (trace s) ++
   match raw with
   | EmptyString => []
   | String _ _ =>
       if PyStr.contains "SELECT" sql
       then statements W (issued sql query_embedding default_top_k)
       else []
   end)%list.
Proof.
  intros Hg Hs1 sql. rewrite search_run, Hg. cbv zeta.
  destruct raw as [|a q].
  - cbn [fst]. rewrite trace_log, executed_app, Hs1. reflexivity.
  - fold sql. destruct (PyStr.contains "SELECT" sql).
    + pose proof (executed_execute sql query_embedding default_top_k
        (log s1 [EvStWrite (UiText ("Generated SQL Query:" ++ nl ++ sql))]))
        as Hx.
      destruct (execute_sql_query W sql query_embedding default_top_k _)
        as [s3 [[[|r0 rs]|]|e]]; cbn [fst] in *;
        rewrite ?trace_log, ?executed_app, Hx, trace_log, executed_app, Hs1;
        cbn [executed app]; now rewrite ?app_nil_r.
    + cbn [fst]. rewrite !trace_log, !executed_app, Hs1.
      cbn [executed app]. now rewrite ?app_nil_r.
Qed.

(** What the user is shown first when synthesis gave a non-empty text. *)
Lemma ui_after_synthesis user_input a q query_embedding (s s1 : @state float) :
  generate_sql_query W user_input s
    = (s1, Return (Some (String a q), query_embedding)) ->
  ui (trace s1) = ui (trace s) ->
  let sql := PyStr.strip (PyStr.re_sub_fence (String a q)) in
  exists rest,
    ui (trace (fst (search W user_input s))) =
    (ui (trace s) ++
     EvStWrite (UiText ("Generated SQL Query:" ++ nl ++ sql)) :: rest)%list.
Proof.
  intros Hg Hs1 sql. rewrite search_run, Hg. cbv zeta. fold sql.
  destruct (PyStr.contains "SELECT" sql).
  - pose proof (ui_execute sql query_embedding default_top_k
      (log s1 [EvStWrite (UiText ("Generated SQL Query:" ++ nl ++ sql))]))
      as Hx.
    destruct (execute_sql_query W sql query_embedding default_top_k _)
      as [s3 [[[|r0 rs]|]|e]]; cbn [fst] in *;
      rewrite ?trace_log, ?ui_app, Hx, trace_log, ui_app, Hs1;
      cbn [ui filter is_ui app]; eexists; rewrite <- ?app_assoc; reflexivity.
  - cbn [fst]. rewrite !trace_log, !ui_app, Hs1.
    cbn [ui filter is_ui app]. eexists. rewrite <- app_assoc. reflexivity.
Qed.

End Observations.

(** * Fence markers are gone before the gate and the store *)

Section FenceStripping.

Context {float : Type} `{PyFloat float} `{PyStr.Unicode}.
Variable W : World (float := float).

(** C8: on the structured branch the answer of the collaborator is
    trimmed, loses its code-fence markers (each [```sql] as a whole, each
    other [```], and nothing else) and is trimmed again: white space is all
    that goes at the ends, and the text left neither begins nor ends with
    white space.  An answer that is one fenced block, opened by [```sql] or
    by [```], gives the body of the block without the white space around
    it.  The gate is applied to that text, and that text is what the user
    is shown and what the store is given. *)
Theorem fences_stripped_before_gate_and_execution
  (user_input text : string) (s : @state float) :
  classify user_input = StructuredQuery ->
  generate_content W (prompt user_input) = Return text ->
  PyStr.strip text <> "" ->
  let sql := cleaned text in
  (exists b1 b2 t r c1 c2,
     blank b1 /\ blank b2 /\ text = b1 ++ t ++ b2 /\ trimmed t /\
     fence_erasure t r /\ (forall r', fence_erasure t r' -> r' = r) /\
     blank c1 /\ blank c2 /\ r = c1 ++ sql ++ c2) /\
  PyStr.contains "```" sql = false /\
  PyStr.contains "```sql" sql = false /\
  trimmed sql /\
  (forall b1 body b2,
     blank b1 -> blank b2 -> PyStr.contains "`" body = false ->
     text = b1 ++ "```sql" ++ body ++ "```" ++ b2 \/
     (PyStr.startswith "sql" body = false /\
      text = b1 ++ "```" ++ body ++ "```" ++ b2) ->
     exists c1 c2, blank c1 /\ blank c2 /\ body = c1 ++ sql ++ c2) /\
  (exists rest,
     ui (trace (fst (search W user_input s))) =
     (ui (trace s) ++
      EvStWrite (UiText ("Generated SQL Query:" ++ nl ++ sql)) :: rest)%list) /\
  executed (trace (fst (search W user_input s))) =
    (executed (trace s) ++
     if PyStr.contains "SELECT" sql then statements W sql else [])%list.
Proof.
  intros Hc Ht Hne sql. apply classify_structured in Hc.
  assert (Hg : generate_sql_query W user_input s =
               (log s [EvGenerate (prompt user_input)],
                Return (Some (PyStr.strip text), None))).
  { rewrite (generate_structured_run W _ _ Hc), Ht. reflexivity. }
  assert (Hnf : PyStr.contains "```" sql = false) by apply cleaned_no_fence.
  split; [|split; [|split; [|split; [|split; [|split]]]]].
  - destruct (strip_spec text) as (b1 & b2 & Hb1 & Hb2 & E & Htrim).
    destruct (strip_spec (PyStr.re_sub_fence (PyStr.strip text)))
      as (c1 & c2 & Hc1 & Hc2 & E' & _).
    exists b1, b2, (PyStr.strip text),
      (PyStr.re_sub_fence (PyStr.strip text)), c1, c2.
    repeat (split; [assumption|]).
    split; [apply re_sub_fence_erasure|]. split.
    + intros r' Hr'. now apply fence_erasure_unique.
    + repeat (split; [assumption|]). exact E'.
  - exact Hnf.
  - apply contains_not_occurs. intros (pre & post & E).
    apply contains_not_occurs in Hnf. apply Hnf.
    exists pre, ("sql" ++ post). rewrite E. reflexivity.
  - apply strip_trimmed.
  - intros b1 body b2 Hb1 Hb2 Hbody Hform.
    assert (E : sql = PyStr.strip body).
    { destruct Hform as [-> | [Hsql ->]].
      - now apply cleaned_fenced_sql.
      - now apply cleaned_fenced. }
    destruct (strip_spec body) as (c1 & c2 & Hc1 & Hc2 & E' & _).
    exists c1, c2. rewrite E. auto.
  - unfold sql, cleaned. clear Hnf. revert Hg.
    destruct (PyStr.strip text) as [|a q]; [congruence|]. intros Hg.
    apply (ui_after_synthesis W user_input a q None s _ Hg).
    rewrite trace_log, ui_app. cbn. now rewrite app_nil_r.
  - rewrite (executed_after_synthesis W user_input _ None s _ Hg).
    + unfold sql, cleaned.
      destruct (PyStr.strip text) as [|a q] eqn:E; [congruence|].
      reflexivity.
    + rewrite trace_log, executed_app. cbn. now rewrite app_nil_r.
Qed.

End FenceStripping.

(** A fenced answer with white space around, a no-break space included:
    the statement inside the fence is shown and executed. *)
Lemma fences_stripped_before_gate_and_execution_witness :
  let body := nl ++ "SELECT name FROM products;" ++ nl in
  let text := Utf8.of_bytes [194; 160] ++ "```sql" ++ body ++ "```" ++ nl in
  let W := sample_world (Return None) text (Return Connection)
             (Return (Return [[SqlText "chair"]])) in
  classify "list the product names" = StructuredQuery /\
  generate_content W (prompt "list the product names") = Return text /\
  PyStr.strip text <> "" /\
  cleaned text = "SELECT name FROM products;" /\
  (exists c1 c2, blank c1 /\ blank c2 /\ body = c1 ++ cleaned text ++ c2) /\
  executed (trace (fst (search W "list the product names" initial)))
    = [("SELECT name FROM products;", [])].
Proof.
  intros body text W.
  assert (Hne : PyStr.strip text <> "") by (vm_compute; discriminate).
  assert (Hnl : blank nl).
  { apply (blank_app nl ""); [|constructor]. right. now left. }
  assert (Hnbsp : blank (Utf8.of_bytes [194; 160])).
  { apply (blank_app (Utf8.of_bytes [194; 160]) ""); [|constructor].
    do 11 right. now left. }
  pose proof (fences_stripped_before_gate_and_execution W
                "list the product names" text initial eq_refl eq_refl Hne)
    as (_ & _ & _ & _ & Hform & _ & Hex).
  split; [reflexivity|]. split; [reflexivity|]. split; [exact Hne|].
  split; [reflexivity|]. split; [|exact Hex].
  exact (Hform (Utf8.of_bytes [194; 160]) body nl Hnbsp Hnl eq_refl
           (or_introl eq_refl)).
Defined.

(** * What the executor substitutes *)

Section Substitution.

Context {float : Type} `{PyFloat float} `{PyStr.Unicode}.
Variable W : World (float := float).

(** C10: an embedding with no component is falsy, so the executor takes the
    branch of the absent embedding: the same run, the template sent as it
    is, placeholder included, with no parameter for the driver to bind. *)
Theorem empty_embedding_is_treated_as_absent
  (query : string) (top_k : Z) (s : @state float) :
  execute_sql_query W query (Some []) top_k s =
    execute_sql_query W query None top_k s /\
  issued query (Some []) top_k = query /\
  executed (trace (fst (execute_sql_query W query (Some []) top_k s))) =
    (executed (trace s) ++ statements W query)%list /\
  executed (trace (fst (execute_sql_query W similarity_template (Some []) top_k s)))
    = (executed (trace s) ++
       statements W "SELECT * FROM products ORDER BY embedding <=> %s LIMIT 5;")%list.
Proof.
  split; [reflexivity|]. split; [reflexivity|].
  split; apply executed_execute.
Qed.

(** C7, as the code has it: a non-empty embedding is printed as a vector
    literal that replaces every [%s] of the template, then every [LIMIT 5]
    becomes [LIMIT top_k]; an absent or empty embedding leaves the template
    as it is.  On the similarity template the result is the expected
    statement. *)
Theorem executor_injects_nonempty_embedding
  (query : string) (top_k : Z) (s : @state float) :
  (forall x v,
     executed (trace (fst (execute_sql_query W query (Some (x :: v)) top_k s))) =
     (executed (trace s) ++
      statements W
        (PyStr.replace "LIMIT 5" ("LIMIT " ++ str_int top_k)
           (PyStr.replace "%s"
              ("ARRAY[" ++ PyStr.join ", " (map float_repr (map float32 (x :: v)))
               ++ "]::vector") query)))%list) /\
  (forall x v,
     inject similarity_template (x :: v) top_k =
     "SELECT * FROM products ORDER BY embedding <=> ARRAY[" ++
     PyStr.join ", " (map float_repr (map float32 (x :: v))) ++
     "]::vector LIMIT " ++ str_int top_k ++ ";") /\
  executed (trace (fst (execute_sql_query W query None top_k s))) =
    (executed (trace s) ++ statements W query)%list /\
  executed (trace (fst (execute_sql_query W query (Some []) top_k s))) =
    (executed (trace s) ++ statements W query)%list.
Proof.
  split; [|split; [|split; apply executed_execute]].
  - intros x v. rewrite executed_execute.
    unfold issued, inject, embedding_str, list_repr.
    generalize (PyStr.join ", " (map float_repr (map float32 (x :: v)))).
    intros j.
    replace ("ARRAY" ++ ("[" ++ j ++ "]") ++ "::vector")
      with ("ARRAY[" ++ j ++ "]::vector"); [reflexivity|].
    cbn [append]. now rewrite !str_app_assoc.
  - intros x v. rewrite inject_similarity_template.
    unfold embedding_str, list_repr.
    generalize (PyStr.join ", " (map float_repr (map float32 (x :: v)))).
    intros j. cbn [append]. rewrite !str_app_assoc. reflexivity.
Qed.

End Substitution.

(** An embedding that is present but empty: the placeholder reaches the
    store, where the design has the literal of the empty vector. *)
Lemma empty_embedding_counterexample :
  let W := sample_world (Return (Some [])) "" (Return Connection)
             (Return (Return [])) in
  let query_embedding : option (list sample_float) := Some [] in
  query_embedding <> None /\
  executed (trace (fst (execute_sql_query W similarity_template
                          query_embedding 5 initial)))
    = [("SELECT * FROM products ORDER BY embedding <=> %s LIMIT 5;", [])] /\
  inject similarity_template ([] : list sample_float) 5
    = "SELECT * FROM products ORDER BY embedding <=> ARRAY[]::vector LIMIT 5;".
Proof.
  intros W query_embedding.
  split; [discriminate|]. split; reflexivity.
Qed.

(** * The similarity search end to end *)

Section SimilaritySearch.

Context {float : Type} `{PyFloat float} `{PyStr.Unicode}.
Variable W : World (float := float).

Lemma count_char_app (c : ascii) (a b : string) :
  PyStr.count_char c (a ++ b) = PyStr.count_char c a + PyStr.count_char c b.
Proof.
  induction a as [|x a IH]; [reflexivity|].
  cbn [append PyStr.count_char]. rewrite IH. lia.
Qed.

Lemma count_char_absent (c : ascii) (p : ascii -> bool) (s : string) :
  p c = false -> PyStr.all_chars p s = true -> PyStr.count_char c s = 0.
Proof.
  intros Hc. induction s as [|x s IH]; [reflexivity|].
  cbn [PyStr.all_chars PyStr.count_char]. intros Hs.
  apply andb_true_iff in Hs as [Hx Hs]. rewrite (IH Hs).
  destruct (Ascii.eqb c x) eqn:E; [|reflexivity].
  apply Ascii.eqb_eq in E. congruence.
Qed.

Lemma count_commas_join (l : list string) :
  Forall (fun x => PyStr.count_char "," x = 0) l ->
  PyStr.count_char "," (PyStr.join ", " l) = Nat.pred (length l).
Proof.
  induction 1 as [|x l Hx Hl IH]; [reflexivity|].
  destruct l as [|y l]; [exact Hx|].
  change (PyStr.join ", " (x :: y :: l))
    with (x ++ ", " ++ PyStr.join ", " (y :: l)).
  rewrite !count_char_app, Hx, IH. reflexivity.
Qed.

(** A vector literal has one comma between consecutive components. *)
Lemma embedding_str_commas (v : list float) :
  PyStr.count_char "," (embedding_str v) = Nat.pred (length v).
Proof.
  unfold embedding_str, list_repr.
  rewrite !count_char_app, count_commas_join.
  - rewrite !length_map. cbn. lia.
  - apply Forall_forall. intros x Hx.
    apply in_map_iff in Hx as (y & <- & _).
    apply count_char_absent with (p := float_char);
      [reflexivity | apply float_repr_alphabet].
Qed.

(** The statements of a search on the similarity branch. *)
Lemma similarity_search_executed (user_input : string) (v : list float)
  (s : @state float) :
  use_vector_search user_input = true ->
  embed_content W (Some "retrieval_query") user_input = Return (Some v) ->
  executed (trace (fst (search W user_input s))) =
  (executed (trace s) ++
   statements W (issued similarity_template (Some v) default_top_k))%list.
Proof.
  intros Hu He.
  assert (Hg : generate_sql_query W user_input s =
               (log s [EvEmbed (Some "retrieval_query") user_input],
                Return (Some similarity_template, Some v))).
  { rewrite (generate_similarity_run W _ _ Hu), get_text_embedding_run, He.
    reflexivity. }
  assert (Hs1 : executed (trace (log s [EvEmbed (Some "retrieval_query")
                                          user_input])) = executed (trace s)).
  { rewrite trace_log, executed_app. cbn. now rewrite app_nil_r. }
  pose proof (executed_after_synthesis W user_input similarity_template
                (Some v) s _ Hg Hs1) as Hx.
  cbv zeta in Hx.
  replace (PyStr.strip (PyStr.re_sub_fence similarity_template))
    with similarity_template in Hx by (vm_compute; reflexivity).
  exact Hx.
Qed.

(** C4, on the code: a similarity search whose embedding has 768
    components sends exactly one statement, whose vector literal has 768
    components; its row limit is the 1 of the executor's default [top_k],
    not the 5 of the template. *)
Theorem similarity_search_executes_limit_1
  (user_input : string) (v : list float) (s : @state float) :
  classify user_input = SimilarityQuery ->
  embed_content W (Some "retrieval_query") user_input = Return (Some v) ->
  length v = 768 ->
  connect W = Return Connection ->
  exists literal : string,
    executed (trace (fst (search W user_input s))) =
      (executed (trace s) ++
       [(("SELECT * FROM products ORDER BY embedding <=> " ++ literal
          ++ " LIMIT 1;")%string, [])])%list /\
    literal = "ARRAY[" ++ PyStr.join ", " (map float_repr (map float32 v))
              ++ "]::vector" /\
    length (map float_repr (map float32 v)) = 768 /\
    PyStr.count_char "," literal = 767.
Proof.
  intros Hc He Hlen Hconn. apply classify_similarity in Hc.
  exists (embedding_str v).
  split; [|split; [|split]].
  - rewrite (similarity_search_executed _ v s Hc He).
    unfold statements. rewrite Hconn.
    destruct v as [|x v]; [discriminate|].
    cbn [issued]. rewrite inject_similarity_template. reflexivity.
  - unfold embedding_str, list_repr.
    generalize (PyStr.join ", " (map float_repr (map float32 v))). intros j.
    cbn [append]. now rewrite !str_app_assoc.
  - now rewrite !length_map.
  - rewrite embedding_str_commas, Hlen. reflexivity.
Qed.

End SimilaritySearch.

Lemma similarity_search_executes_limit_1_witness :
  let W := sample_world (Return (Some sample_embedding)) ""
             (Return Connection) (Return (Return [[SqlInt 1; SqlText "chair"]])) in
  let user_input := "find 3 products similar to notebook" in
  classify user_input = SimilarityQuery /\
  embed_content W (Some "retrieval_query") user_input
    = Return (Some sample_embedding) /\
  length sample_embedding = 768 /\
  connect W = Return Connection /\
  exists literal : string,
    executed (trace (fst (search W user_input initial))) =
      (executed (trace initial) ++
       [(("SELECT * FROM products ORDER BY embedding <=> " ++ literal
          ++ " LIMIT 1;")%string, [])])%list /\
    literal = "ARRAY[" ++ PyStr.join ", "
                 (map float_repr (map float32 sample_embedding))
              ++ "]::vector" /\
    length (map float_repr (map float32 sample_embedding)) = 768 /\
    PyStr.count_char "," literal = 767.
Proof.
  intros W user_input.
  split; [reflexivity|]. split; [reflexivity|]. split; [reflexivity|].
  split; [reflexivity|].
  exact (similarity_search_executes_limit_1 W user_input sample_embedding
           initial eq_refl eq_refl eq_refl eq_refl).
Defined.

(** * Empty results, failures and the connection *)

Section Outcomes.

Context {float : Type} `{PyFloat float} `{PyStr.Unicode}.
Variable W : World (float := float).

(** Every exit of the executor: its events, its answer, its console. *)
Lemma executor_exits
  (query : string) (query_embedding : option (list float)) (top_k : Z)
  (s : @state float) :
  let sql := issued query query_embedding top_k in
  let run := execute_sql_query W query query_embedding top_k s in
  exists es,
    trace (fst run) = (trace s ++ es)%list /\
    open_connections 0 es = 0 /\
    match store_error W sql with
    | Some e =>
        if exn_is_Exception e
        then snd run = Return None /\
             printed es = ["Error executing query: " ++ exn_text e]
        else snd run = Raise e /\ printed es = []
    | None =>
        exists rows, store_rows W sql = Some rows /\
                     snd run = Return (Some rows) /\ printed es = []
    end.
Proof.
  intros sql run. subst run. rewrite execute_run. cbv zeta. fold sql.
  unfold store_error, store_rows.
  destruct (connect W) as [c|e].
  - destruct (cur_execute W sql []) as [[rows|e]|e];
      try destruct (exn_is_Exception e) eqn:Ee;
      cbn [fst snd trace]; eexists; (split; [reflexivity|]);
      (split; [reflexivity|]); rewrite ?Ee; eauto.
  - destruct (exn_is_Exception e) eqn:Ee;
      cbn [fst snd trace]; eexists; (split; [reflexivity|]);
      (split; [reflexivity|]); rewrite ?Ee; eauto.
Qed.

(** C6, as the code has it: an error deriving from [Exception], wherever the
    store raises it, is printed and answered by [None]; nothing deriving
    from [Exception] passes the boundary; and on every exit, normal or not,
    each connection established during the call has been closed. *)
Theorem executor_catches_errors_and_closes_connection
  (query : string) (query_embedding : option (list float)) (top_k : Z)
  (s : @state float) :
  let sql := issued query query_embedding top_k in
  let run := execute_sql_query W query query_embedding top_k s in
  exists es,
    trace (fst run) = (trace s ++ es)%list /\
    open_connections 0 es = 0 /\
    match store_error W sql with
    | Some e =>
        if exn_is_Exception e
        then snd run = Return None /\
             printed es = ["Error executing query: " ++ exn_text e]
        else snd run = Raise e /\ printed es = []
    | None =>
        exists rows, store_rows W sql = Some rows /\
                     snd run = Return (Some rows) /\ printed es = []
    end.
Proof. exact (executor_exits query query_embedding top_k s). Qed.

(** C5, as the code has it: an empty row set is answered by the empty list
    and a caught failure by [None], two different values; the handler shows
    the same message for both. *)
Theorem empty_result_and_failure_differ_only_in_return_value
  (user_input raw : string) (query_embedding : option (list float))
  (s s1 : @state float) :
  generate_sql_query W user_input s = (s1, Return (Some raw, query_embedding)) ->
  raw <> "" ->
  let sql := PyStr.strip (PyStr.re_sub_fence raw) in
  let shown := EvStWrite (UiText ("Generated SQL Query:" ++ nl ++ sql)) in
  let run := execute_sql_query W sql query_embedding default_top_k
               (log s1 [shown]) in
  PyStr.contains "SELECT" sql = true ->
  (store_rows W (issued sql query_embedding default_top_k) = Some [] ->
   snd run = Return (Some [])) /\
  (forall e, store_error W (issued sql query_embedding default_top_k) = Some e ->
             exn_is_Exception e = true -> snd run = Return None) /\
  @Some (list row) [] <> None /\
  (snd run = Return (Some []) \/ snd run = Return None ->
   ui (trace (fst (search W user_input s))) =
   (ui (trace s1) ++
    [shown; EvStError "No results found or query execution failed."])%list).
Proof.
  intros Hg Hraw sql shown run Hgate.
  pose proof (executor_exits sql query_embedding
                default_top_k (log s1 [shown])) as Hx.
  cbv zeta in Hx. fold run in Hx. destruct Hx as (es & _ & _ & Hx).
  split; [|split; [|split]].
  - intros Hrows. unfold store_error, store_rows in *.
    destruct (connect W) as [c|e]; [|discriminate].
    destruct (cur_execute W _ []) as [[rows|e]|e]; try discriminate.
    destruct Hx as (rows' & Hr & -> & _). congruence.
  - intros e He Hexc. rewrite He, Hexc in Hx. tauto.
  - discriminate.
  - intros Hres.
    pose proof (ui_execute W sql query_embedding default_top_k (log s1 [shown]))
      as Hu.
    fold run in Hu.
    rewrite search_run, Hg. cbv zeta.
    destruct raw as [|a q]; [congruence|].
    fold sql. rewrite Hgate. fold shown. fold run.
    destruct run as [s3 r]. cbn [fst snd] in *.
    destruct Hres as [-> | ->]; cbn [fst];
      rewrite trace_log, ui_app, Hu, trace_log, ui_app;
      cbn [ui filter is_ui app]; now rewrite <- app_assoc.
Qed.

End Outcomes.

(** * The ingestion job *)

Section Ingestion.

Context {float : Type} `{PyFloat float} `{PyStr.Unicode}.
Variable W : World (float := float).

(** The loop body, by the answers of the embedding service and the store. *)
Lemma ingest_row_run (product_id : Z) (name : string) (s : @state float) :
  ingest_row W (product_id, name) s =
  let call := EvEmbed None name in
  match embed_content W None name with
  | Raise e => (log s [call], Raise e)
  | Return None =>
      (log s [call],
       Raise {| exn_is_Exception := true; exn_text := "'embedding'" |})
  | Return (Some v) =>
      let write := EvExecute update_sql [ParamVector v; ParamInt product_id] in
      match cur_execute W update_sql [ParamVector v; ParamInt product_id] with
      | Raise e => (log s [call; write], Raise e)
      | Return _ => (log s [call; write], Return tt)
      end
  end.
Proof.
  unfold ingest_row, call_embed_content, call_execute, bind, emit, lift, ret,
    raise. cbn [fst snd].
  destruct (embed_content W None name) as [[v|]|e]; try reflexivity.
  change "UPDATE products SET embedding = %s WHERE id = %s;" with update_sql.
  cbv zeta.
  destruct (cur_execute W update_sql _) as [p|e]; now rewrite log_log.
Qed.

(** The loop on any rows: the vectors computed, for the first rows only
    when a call fails, the statements sent, and how the loop ends. *)
Lemma for_each_rows_any (rows : list (Z * string)) (s : @state float) :
  exists vectors es,
    fst (for_each rows (ingest_row W) s) = log s es /\
    length vectors <= length rows /\
    Forall2 (fun r v => embed_content W None (snd r) = Return (Some v))
            (firstn (length vectors) rows) vectors /\
    executed es = map (fun rv => embedding_write (fst rv) (snd rv))
                      (combine rows vectors) /\
    forallb is_row_event es = true /\
    (snd (for_each rows (ingest_row W) s) = Return tt ->
     length vectors = length rows) /\
    snd (for_each rows (ingest_row W) s) =
      match rows_error W rows with
      | None => Return tt
      | Some e => Raise e
      end.
Proof.
  revert s. induction rows as [|[product_id name] rows IH]; intros s.
  - exists [], []. cbn. unfold log. rewrite app_nil_r.
    destruct s. repeat split; constructor.
  - cbn [for_each rows_error]. unfold bind at 1 2 3. rewrite ingest_row_run.
    cbv zeta.
    destruct (embed_content W None name) as [[v|]|e] eqn:He.
    + destruct (cur_execute W update_sql _) as [p|e].
      * destruct (IH (log s [EvEmbed None name;
                            EvExecute update_sql
                              [ParamVector v; ParamInt product_id]]))
          as (vectors & es & Hf & Hlen & HF & Hex & Hall & Hret & Hend).
        exists (v :: vectors), (EvEmbed None name ::
                 EvExecute update_sql [ParamVector v; ParamInt product_id]
                 :: es).
        rewrite Hf, log_log. cbn [length firstn combine map executed forallb
                                   is_row_event andb app].
        split; [reflexivity|]. split; [lia|].
        split; [constructor; [exact He | exact HF]|].
        split; [now rewrite Hex|]. split; [exact Hall|].
        split; [|exact Hend].
        intros Hr. now rewrite (Hret Hr).
      * exists [v], [EvEmbed None name;
                     EvExecute update_sql [ParamVector v; ParamInt product_id]].
        cbn [fst snd length firstn combine map executed forallb is_row_event
             andb].
        split; [reflexivity|]. split; [lia|].
        split; [constructor; [exact He | constructor]|].
        split; [now destruct rows|]. split; [reflexivity|].
        split; [discriminate | reflexivity].
    + exists [], [EvEmbed None name].
      cbn [fst snd length firstn combine map executed forallb is_row_event andb].
      split; [reflexivity|]. split; [lia|]. split; [constructor|].
      split; [reflexivity|]. split; [reflexivity|].
      split; [discriminate | reflexivity].
    + exists [], [EvEmbed None name].
      cbn [fst snd length firstn combine map executed forallb is_row_event andb].
      split; [reflexivity|]. split; [lia|]. split; [constructor|].
      split; [reflexivity|]. split; [reflexivity|].
      split; [discriminate | reflexivity].
Qed.

(** No call of the loop raises exactly when every row has an embedding and
    its write is accepted. *)
Lemma rows_error_none (rows : list (Z * string)) :
  rows_error W rows = None <-> rows_succeed W rows.
Proof.
  induction rows as [|[product_id name] rows IH].
  - split; [intros _ i n [] | reflexivity].
  - cbn [rows_error]. split.
    + intros He i n [[= <- <-]|Hin].
      * destruct (embed_content W None name) as [[v|]|e]; try discriminate.
        destruct (cur_execute W update_sql _) as [p|e] eqn:Ep; [|discriminate].
        now exists v, p.
      * destruct (embed_content W None name) as [[v|]|e]; try discriminate.
        destruct (cur_execute W update_sql _) as [p|e]; [|discriminate].
        now apply (proj1 IH He).
    + intros Hok.
      destruct (Hok product_id name (or_introl eq_refl)) as (v & p & -> & ->).
      apply IH. intros i n Hin. apply Hok. now right.
Qed.

(** The script, by the answers of the store. *)
Lemma ingest_run (s : @state float) :
  ingest W s =
  match connect W with
  | Raise e => (log s [EvConnect false], Raise e)
  | Return c =>
      let s0 := {| trace := trace s ++ [EvConnect true;
                                        EvExecute select_products []];
                   conn := Some c |} in
      match cur_execute W select_products [] with
      | Raise e => (s0, Raise e)
      | Return _ =>
          match products W with
          | Raise e => (log s0 [EvFetchall], Raise e)
          | Return rows =>
              match for_each rows (ingest_row W) (log s0 [EvFetchall]) with
              | (s2, Raise e) => (s2, Raise e)
              | (s2, Return _) =>
                  match commit W with
                  | Raise e => (log s2 [EvCommit false], Raise e)
                  | Return _ =>
                      (log s2 [EvCommit true; EvCursorClose; EvClose], Return tt)
                  end
              end
          end
      end
  end.
Proof.
  unfold ingest, call_connect, call_execute, call_fetchall, call_commit,
    call_cursor_close, call_close.
  change "SELECT id, name FROM products;" with select_products.
  destruct (connect W) as [c|e]; [|reflexivity].
  unfold bind, emit, lift, ret, raise, set_conn, log. cbn [fst snd trace conn].
  repeat rewrite <- app_assoc. cbn [app].
  destruct (cur_execute W select_products []) as [p|e]; [|reflexivity].
  destruct (products W) as [rows|e]; [|reflexivity].
  destruct (for_each rows (ingest_row W) _) as [s2 [[]|e]]; [|reflexivity].
  destruct (commit W) as [[]|e]; cbn [fst snd trace conn]; [|reflexivity].
  repeat rewrite <- app_assoc. reflexivity.
Qed.

(** C9, for a run in which no call raises: the job reads the rows with one
    [SELECT] and then sends, for every row and in the order of the rows,
    exactly one [UPDATE] whose vector is the embedding of the row's name
    and whose key is the row's id; it commits and closes. *)
Theorem ingestion_writes_one_embedding_per_row
  (rows : list (Z * string)) (s : @state float) :
  ingestion_succeeds W rows ->
  exists s' vectors,
    ingest W s = (s', Return tt) /\
    Forall2 (fun r v => embed_content W None (snd r) = Return (Some v))
            rows vectors /\
    executed (trace s') =
      (executed (trace s) ++
       ("SELECT id, name FROM products;", []) ::
       map (fun rv => embedding_write (fst rv) (snd rv))
           (combine rows vectors))%list /\
    length (combine rows vectors) = length rows /\
    exists es,
      trace s' = (trace s ++ es ++ [EvCommit true; EvCursorClose; EvClose])%list.
Proof.
  intros ((c & Hconn) & (pending & Hsel) & Hrows & Hok & Hcommit).
  rewrite ingest_run, Hconn, Hsel, Hrows, Hcommit. cbv zeta.
  apply rows_error_none in Hok.
  match goal with
  | |- context [for_each rows (ingest_row W) ?s0] =>
      destruct (for_each_rows_any rows s0)
        as (vectors & es & Hf & _ & HF & Hex & _ & Hret & Hend);
      destruct (for_each rows (ingest_row W) s0) as [s2 r]
  end.
  cbn [fst snd] in *. subst s2. rewrite Hok in Hend. subst r.
  specialize (Hret eq_refl). rewrite Hret, firstn_all in HF.
  eexists. exists vectors. split; [reflexivity|]. split; [exact HF|].
  split; [|split].
  - rewrite !trace_log. cbn [trace].
    rewrite !executed_app, Hex. cbn [executed app].
    repeat rewrite app_nil_r; now repeat rewrite <- app_assoc.
  - rewrite length_combine. lia.
  - exists ([EvConnect true; EvExecute select_products []; EvFetchall]
            ++ es)%list.
    rewrite !trace_log. cbn [trace]. now rewrite <- !app_assoc.
Qed.

End Ingestion.

(** Two rows, two writes, each with the id of its row. *)
Lemma ingestion_writes_one_embedding_per_row_witness :
  let W := sample_world (Return (Some [F_half; F_one])) ""
             (Return Connection) (Return (Return [])) in
  let rows := [(1%Z, "chair"); (2%Z, "desk")] in
  ingestion_succeeds W rows /\
  exists s' vectors,
    ingest W initial = (s', Return tt) /\
    Forall2 (fun r v => embed_content W None (snd r) = Return (Some v))
            rows vectors /\
    executed (trace s') =
      (executed (trace initial) ++
       ("SELECT id, name FROM products;", []) ::
       map (fun rv => embedding_write (fst rv) (snd rv))
           (combine rows vectors))%list /\
    length (combine rows vectors) = length rows /\
    exists es,
      trace s' =
      (trace initial ++ es ++ [EvCommit true; EvCursorClose; EvClose])%list.
Proof.
  intros W rows.
  assert (Hok : ingestion_succeeds W rows).
  { split; [now exists Connection|]. split; [now exists (Return [])|].
    split; [reflexivity|]. split; [|reflexivity].
    intros product_id name _. exists [F_half; F_one], (Return []).
    split; reflexivity. }
  split; [exact Hok|].
  exact (ingestion_writes_one_embedding_per_row W rows initial Hok).
Defined.

(** The embedding service has no embedding for the first of two names: the
    job ends on the error of that row, no row is written and nothing is
    committed. *)
Lemma ingestion_partial_write_counterexample :
  let rows := [(7%Z, "chair"); (8%Z, "desk")] in
  let W := ingestion_world "chair" rows in
  connect W = Return Connection /\
  products W = Return rows /\
  snd (ingest W initial) =
    Raise {| exn_is_Exception := true; exn_text := "'embedding'" |} /\
  executed (trace (fst (ingest W initial))) =
    [("SELECT id, name FROM products;", [])] /\
  store_calls (trace (fst (ingest W initial))) =
    [EvConnect true; EvExecute "SELECT id, name FROM products;" []; EvFetchall].
Proof. vm_compute. repeat split. Qed.

(** * Sample runs of the executor and of the handler *)

(** A query that finds nothing: the executor answers the empty list and the
    handler shows the common message. *)
Lemma empty_result_and_failure_differ_only_in_return_value_witness :
  let user_input := "list the products with a negative price" in
  let raw := "SELECT * FROM products WHERE price < 0;" in
  let W := sample_world (Return None) raw (Return Connection)
             (Return (Return [])) in
  let s1 := log initial [EvGenerate (prompt user_input)] in
  let sql := PyStr.strip (PyStr.re_sub_fence raw) in
  let shown := EvStWrite (UiText ("Generated SQL Query:" ++ nl ++ sql)) in
  generate_sql_query W user_input initial = (s1, Return (Some raw, None)) /\
  raw <> "" /\
  PyStr.contains "SELECT" sql = true /\
  snd (execute_sql_query W sql None default_top_k (log s1 [shown]))
    = Return (Some []) /\
  ui (trace (fst (search W user_input initial))) =
    (ui (trace s1) ++
     [shown; EvStError "No results found or query execution failed."])%list.
Proof.
  intros user_input raw W s1 sql shown.
  assert (Hne : raw <> "") by discriminate.
  destruct (empty_result_and_failure_differ_only_in_return_value W
              user_input raw None initial s1 eq_refl Hne eq_refl)
    as (Hempty & _ & _ & Hui).
  split; [reflexivity|]. split; [exact Hne|]. split; [reflexivity|].
  split; [exact (Hempty eq_refl)|].
  exact (Hui (or_introl (Hempty eq_refl))).
Defined.

(** The store answers no row in one world and a syntax error in the other:
    the executor answers differently, the user sees the same. *)
Lemma empty_result_counterexample :
  let user_input := "list the products with a negative price" in
  let answer := "SELECT * FROM products WHERE price < 0;" in
  let W_empty := sample_world (Return None) answer (Return Connection)
                   (Return (Return [])) in
  let W_failed := sample_world (Return None) answer (Return Connection)
                    (Raise syntax_error) in
  snd (execute_sql_query W_empty answer None default_top_k initial)
    = Return (Some []) /\
  snd (execute_sql_query W_failed answer None default_top_k initial)
    = Return None /\
  ui (trace (fst (search W_empty user_input initial))) =
  ui (trace (fst (search W_failed user_input initial))).
Proof. vm_compute. repeat split. Qed.

(** A refused connection and a syntax error are two causes with one and the
    same return value: the value does not carry the cause. *)
Lemma failure_cause_counterexample :
  let query := "SELECT * FROM products;" in
  let W_refused := sample_world (Return None) "" (Raise connection_refused)
                     (Return (Return [])) in
  let W_syntax := sample_world (Return None) "" (Return Connection)
                    (Raise syntax_error) in
  store_error W_refused query = Some connection_refused /\
  store_error W_syntax query = Some syntax_error /\
  connection_refused <> syntax_error /\
  snd (execute_sql_query W_refused query None default_top_k initial) =
  snd (execute_sql_query W_syntax query None default_top_k initial).
Proof.
  intros query W_refused W_syntax.
  split; [reflexivity|]. split; [reflexivity|].
  split; [discriminate | reflexivity].
Qed.

(** * The collaborators' errors *)

Section Collaborators.

Context {float : Type} `{PyFloat float} `{PyStr.Unicode}.
Variable W : World (float := float).

Lemma embedded_app (a b : list (@event float)) :
  embedded (a ++ b) = (embedded a ++ embedded b)%list.
Proof.
  induction a as [|e a IH]; [reflexivity|].
  destruct e; cbn [embedded app]; now rewrite ?IH.
Qed.

Lemma generated_app (a b : list (@event float)) :
  generated (a ++ b) = (generated a ++ generated b)%list.
Proof.
  induction a as [|e a IH]; [reflexivity|].
  destruct e; cbn [generated app]; now rewrite ?IH.
Qed.

Lemma printed_app (a b : list (@event float)) :
  printed (a ++ b) = (printed a ++ printed b)%list.
Proof.
  induction a as [|e a IH]; [reflexivity|].
  destruct e; cbn [printed app]; now rewrite ?IH.
Qed.

(** X1: The embedding client calls the service once, with the task type of a
    query, and touches nothing else.  Whatever derives from [Exception] is
    printed and answered by [None]; a response without an embedding is
    answered by [None] too; only a fault that does not derive from
    [Exception] passes. *)
Theorem embedding_client_catches_errors (text : string) (s : @state float) :
  let run := get_text_embedding W text s in
  exists es,
    fst run = log s es /\
    embedded es = [(Some "retrieval_query", text)] /\
    store_calls es = [] /\ generated es = [] /\ ui es = [] /\
    match embed_content W (Some "retrieval_query") text with
    | Return response => snd run = Return response /\ printed es = []
    | Raise e =>
        if exn_is_Exception e
        then snd run = Return None /\
             printed es = ["Error generating embedding: " ++ exn_text e]
        else snd run = Raise e /\ printed es = []
    end.
Proof.
  intros run. subst run. rewrite get_text_embedding_run. cbv zeta.
  destruct (embed_content W _ text) as [r|e].
  - eexists. split; [reflexivity|]. repeat split.
  - destruct (exn_is_Exception e); eexists; (split; [reflexivity|]);
      repeat split.
Qed.

(** Synthesis: where it leaves the state, and what it never lets pass. *)
Lemma generate_events (user_input : string) (s : @state float) :
  let run := generate_sql_query W user_input s in
  exists es,
    fst run = log s es /\
    store_calls es = [] /\ executed es = [] /\ ui es = [] /\
    (if use_vector_search user_input
     then embedded es = [(Some "retrieval_query", user_input)] /\
          generated es = []
     else embedded es = [] /\ generated es = [prompt user_input]) /\
    (forall e, snd run = Raise e -> exn_is_Exception e = false).
Proof.
  intros run. subst run.
  destruct (use_vector_search user_input) eqn:Hu.
  - rewrite (generate_similarity_run W _ _ Hu), get_text_embedding_run.
    cbv zeta.
    destruct (embed_content W _ user_input) as [[v|]|e].
    + eexists. split; [reflexivity|]. repeat split. discriminate.
    + eexists. split; [reflexivity|]. repeat split. discriminate.
    + destruct (exn_is_Exception e) eqn:Ee.
      * eexists. split; [reflexivity|]. repeat split. discriminate.
      * rewrite Ee. eexists. split; [reflexivity|]. repeat split.
        intros e' [= <-]. exact Ee.
  - rewrite (generate_structured_run W _ _ Hu). cbv zeta.
    destruct (generate_content W (prompt user_input)) as [t|e].
    + eexists. split; [reflexivity|]. repeat split. discriminate.
    + destruct (exn_is_Exception e) eqn:Ee.
      * eexists. split; [reflexivity|]. repeat split. discriminate.
      * eexists. split; [reflexivity|]. repeat split.
        intros e' [= <-]. exact Ee.
Qed.

(** X2: When the language model fails with an error deriving from [Exception],
    or answers nothing but white space, the search ends on the failure
    message and the store is not called. *)
Theorem synthesis_failure_makes_no_store_call
  (user_input : string) (s : @state float) :
  classify user_input = StructuredQuery ->
  (exists e, generate_content W (prompt user_input) = Raise e /\
             exn_is_Exception e = true) \/
  (exists text, generate_content W (prompt user_input) = Return text /\
                PyStr.strip text = "") ->
  exists s',
    search W user_input s = (s', Return tt) /\
    store_calls (trace s') = store_calls (trace s) /\
    executed (trace s') = executed (trace s) /\
    ui (trace s') =
      (ui (trace s) ++ [EvStError "Failed to generate a valid SQL query."])%list.
Proof.
  intros Hc Hfail. apply classify_structured in Hc.
  rewrite search_run, (generate_structured_run W _ _ Hc). cbv zeta.
  destruct Hfail as [(e & -> & ->) | (text & -> & ->)];
    eexists; (split; [reflexivity|]);
    rewrite log_log, trace_log, store_calls_app, executed_app, ui_app;
    cbn [store_calls executed ui filter is_store_call is_ui app];
    now rewrite !app_nil_r.
Qed.

End Collaborators.

(** The language model times out: one message, no store call. *)
Lemma synthesis_failure_makes_no_store_call_witness :
  let timeout := {| exn_is_Exception := true; exn_text := "deadline exceeded" |} in
  let W : World (float := sample_float) :=
    {| embed_content := fun _ _ => Return None;
       generate_content := fun _ => Raise timeout;
       connect := Return Connection;
       cur_execute := fun _ _ => Return (Return []);
       products := Return [];
       commit := Return tt |} in
  classify "list all employees in sales" = StructuredQuery /\
  exists s',
    search W "list all employees in sales" initial = (s', Return tt) /\
    store_calls (trace s') = store_calls (trace initial) /\
    executed (trace s') = executed (trace initial) /\
    ui (trace s') =
      (ui (trace initial) ++
       [EvStError "Failed to generate a valid SQL query."])%list.
Proof.
  intros timeout W. split; [reflexivity|].
  apply (synthesis_failure_makes_no_store_call W
           "list all employees in sales" initial eq_refl).
  left. exists timeout. split; reflexivity.
Defined.

(** * The order of the calls *)

Section Protocol.

Context {float : Type} `{PyFloat float} `{PyStr.Unicode}.
Variable W : World (float := float).

(** The events of one call of the executor. *)
Lemma execute_events
  (query : string) (query_embedding : option (list float)) (top_k : Z)
  (s : @state float) :
  let sql := issued query query_embedding top_k in
  let run := execute_sql_query W query query_embedding top_k s in
  exists es,
    trace (fst run) = (trace s ++ es)%list /\
    embedded es = [] /\ generated es = [] /\ ui es = [] /\
    store_calls es =
      match connect W with
      | Raise _ => [EvConnect false]
      | Return _ =>
          match cur_execute W sql [] with
          | Raise _ => [EvConnect true; EvExecute sql []; EvClose]
          | Return _ => [EvConnect true; EvExecute sql []; EvFetchall; EvClose]
          end
      end.
Proof.
  intros sql run. subst run. rewrite execute_run. cbv zeta. fold sql.
  destruct (connect W) as [c|e].
  - destruct (cur_execute W sql []) as [[rows|e]|e];
      try destruct (exn_is_Exception e);
      cbn [fst trace]; eexists; (split; [reflexivity|]); repeat split.
  - destruct (exn_is_Exception e);
      cbn [fst trace]; eexists; (split; [reflexivity|]); repeat split.
Qed.

(** X4: One call of the executor talks to the store in a fixed order: it
    connects; only on an established connection does it send its one
    statement; only after an accepted statement does it fetch; and it closes
    last.  It never commits, calls no collaborator and shows nothing. *)
Theorem executor_store_protocol
  (query : string) (query_embedding : option (list float)) (top_k : Z)
  (s : @state float) :
  let sql := issued query query_embedding top_k in
  let run := execute_sql_query W query query_embedding top_k s in
  exists es,
    trace (fst run) = (trace s ++ es)%list /\
    embedded es = [] /\ generated es = [] /\ ui es = [] /\
    store_calls es =
      match connect W with
      | Raise _ => [EvConnect false]
      | Return _ =>
          match cur_execute W sql [] with
          | Raise _ => [EvConnect true; EvExecute sql []; EvClose]
          | Return _ => [EvConnect true; EvExecute sql []; EvFetchall; EvClose]
          end
      end.
Proof. exact (execute_events query query_embedding top_k s). Qed.

Lemma execute_raises_no_exception
  (query : string) (query_embedding : option (list float)) (top_k : Z)
  (s : @state float) (e : exn) :
  snd (execute_sql_query W query query_embedding top_k s) = Raise e ->
  exn_is_Exception e = false.
Proof.
  rewrite execute_run. cbv zeta.
  destruct (connect W) as [c|e0].
  - destruct (cur_execute W _ []) as [[rows|e0]|e0];
      try destruct (exn_is_Exception e0) eqn:E0; cbn [snd];
      try discriminate; now intros [= <-].
  - destruct (exn_is_Exception e0) eqn:E0; cbn [snd];
      try discriminate; now intros [= <-].
Qed.

(** The events of a search: those of synthesis, then the rest, in which no
    collaborator is called. *)
Lemma search_events (user_input : string) (s : @state float) :
  exists es_g es_r,
    fst (generate_sql_query W user_input s) = log s es_g /\
    trace (fst (search W user_input s)) = (trace s ++ es_g ++ es_r)%list /\
    embedded es_r = [] /\ generated es_r = [].
Proof.
  destruct (generate_events W user_input s) as (es_g & Hg & _).
  exists es_g. rewrite search_run.
  destruct (generate_sql_query W user_input s) as [s1 r].
  cbn [fst] in Hg. subst s1.
  destruct r as [[[[|a q]|] emb]|e].
  - exists [EvStError "Failed to generate a valid SQL query."].
    split; [reflexivity|]. cbn [fst]. rewrite !trace_log.
    split; [now rewrite <- !app_assoc | split; reflexivity].
  - cbv zeta.
    set (sql := PyStr.strip (PyStr.re_sub_fence (String a q))).
    set (shown := EvStWrite (UiText ("Generated SQL Query:" ++ nl ++ sql))).
    destruct (PyStr.contains "SELECT" sql).
    + destruct (execute_events sql emb default_top_k
                  (log (log s es_g) [shown])) as (es & Ht & He & Hgen & _).
      cbv zeta in Ht.
      destruct (execute_sql_query W sql emb default_top_k _)
        as [s3 [[[|r0 rs]|]|e]]; cbn [fst] in *.
      * exists (shown :: es ++ [EvStError no_results_message])%list.
        split; [reflexivity|]. rewrite trace_log, Ht, !trace_log.
        split; [now rewrite <- !app_assoc|].
        cbn [embedded generated]. rewrite embedded_app, generated_app, He, Hgen.
        split; reflexivity.
      * exists (shown :: es ++ [EvStWrite (UiRows (r0 :: rs))])%list.
        split; [reflexivity|]. rewrite trace_log, Ht, !trace_log.
        split; [now rewrite <- !app_assoc|].
        cbn [embedded generated]. rewrite embedded_app, generated_app, He, Hgen.
        split; reflexivity.
      * exists (shown :: es ++ [EvStError no_results_message])%list.
        split; [reflexivity|]. rewrite trace_log, Ht, !trace_log.
        split; [now rewrite <- !app_assoc|].
        cbn [embedded generated]. rewrite embedded_app, generated_app, He, Hgen.
        split; reflexivity.
      * exists (shown :: es)%list.
        split; [reflexivity|]. rewrite Ht, !trace_log.
        split; [now rewrite <- !app_assoc|].
        cbn [embedded generated]. split; assumption.
    + exists [shown; EvStError "Invalid SQL Query!"].
      split; [reflexivity|]. cbn [fst]. rewrite !trace_log.
      split; [now rewrite <- !app_assoc | split; reflexivity].
  - exists [EvStError "Failed to generate a valid SQL query."].
    split; [reflexivity|]. cbn [fst]. rewrite !trace_log.
    split; [now rewrite <- !app_assoc | split; reflexivity].
  - exists []. split; [reflexivity|]. cbn [fst]. rewrite trace_log, app_nil_r.
    split; [reflexivity | split; reflexivity].
Qed.

(** X5: A search calls exactly one collaborator, once: the embedding service on
    the similarity branch and never the language model; the language model
    on the structured branch and never the embedding service. *)
Theorem search_calls_one_collaborator (user_input : string) (s : @state float) :
  exists es,
    trace (fst (search W user_input s)) = (trace s ++ es)%list /\
    if use_vector_search user_input
    then embedded es = [(Some "retrieval_query", user_input)] /\
         generated es = []
    else embedded es = [] /\ generated es = [prompt user_input].
Proof.
  destruct (search_events user_input s) as (es_g & es_r & Hg & Ht & He & Hgen).
  destruct (generate_events W user_input s) as (es' & Hg' & _ & _ & _ & Hb & _).
  cbv zeta in Hg'. rewrite Hg in Hg'.
  assert (es' = es_g) as ->.
  { unfold log in Hg'. injection Hg' as Heq.
    now apply app_inv_head in Heq. }
  exists (es_g ++ es_r)%list. split; [exact Ht|].
  rewrite embedded_app, generated_app, He, Hgen, !app_nil_r. exact Hb.
Qed.

End Protocol.

(** * What a search shows *)

Section Display.

Context {float : Type} `{PyFloat float} `{PyStr.Unicode}.
Variable W : World (float := float).

(** X3: Nothing deriving from [Exception] leaves the search handler: every
    error of a collaborator or of the store is caught on the way.  A search
    that returns has shown the user either one error message, or the query
    text followed by the rows or by one error message. *)
Theorem search_lets_no_exception_pass (user_input : string) (s : @state float) :
  match snd (search W user_input s) with
  | Raise e => exn_is_Exception e = false
  | Return _ =>
      exists es,
        ui (trace (fst (search W user_input s))) = (ui (trace s) ++ es)%list /\
        ((exists msg, es = [EvStError msg]) \/
         (exists sql final,
            es = [EvStWrite (UiText ("Generated SQL Query:" ++ nl ++ sql)); final]
            /\ ((exists msg, final = EvStError msg) \/
                (exists rows, final = EvStWrite (UiRows rows)))))
  end.
Proof.
  destruct (generate_events W user_input s) as (es_g & Hg & _ & _ & Hui & _ & Hexc).
  cbv zeta in *. rewrite search_run.
  destruct (generate_sql_query W user_input s) as [s1 r].
  cbn [fst snd] in *. subst s1.
  assert (Hs1 : ui (trace s ++ es_g) = ui (trace s)).
  { rewrite ui_app, Hui. apply app_nil_r. }
  destruct r as [[[[|a q]|] emb]|e].
  - cbn [fst snd]. eexists. rewrite !trace_log, ui_app, Hs1.
    split; [reflexivity|]. left. eexists. reflexivity.
  - cbv zeta.
    set (sql := PyStr.strip (PyStr.re_sub_fence (String a q))).
    set (shown := EvStWrite (UiText ("Generated SQL Query:" ++ nl ++ sql))).
    destruct (PyStr.contains "SELECT" sql).
    + pose proof (ui_execute W sql emb default_top_k (log (log s es_g) [shown]))
        as Hx.
      pose proof (execute_raises_no_exception W sql emb default_top_k
                    (log (log s es_g) [shown])) as Hr.
      rewrite !trace_log, ui_app, Hs1 in Hx.
      destruct (execute_sql_query W sql emb default_top_k _)
        as [s3 [[[|r0 rs]|]|e]]; cbn [fst snd] in *.
      * eexists. rewrite trace_log, ui_app, Hx, <- app_assoc.
        split; [reflexivity|]. right. exists sql. eexists.
        split; [reflexivity|]. left. eexists. reflexivity.
      * eexists. rewrite trace_log, ui_app, Hx, <- app_assoc.
        split; [reflexivity|]. right. exists sql. eexists.
        split; [reflexivity|]. right. eexists. reflexivity.
      * eexists. rewrite trace_log, ui_app, Hx, <- app_assoc.
        split; [reflexivity|]. right. exists sql. eexists.
        split; [reflexivity|]. left. eexists. reflexivity.
      * now apply Hr.
    + cbn [fst snd]. eexists.
      rewrite !trace_log, !ui_app, Hui, app_nil_r, <- app_assoc.
      split; [reflexivity|]. right. exists sql. eexists.
      split; [reflexivity|]. left. eexists. reflexivity.
  - cbn [fst snd]. eexists. rewrite !trace_log, ui_app, Hs1.
    split; [reflexivity|]. left. eexists. reflexivity.
  - now apply Hexc.
Qed.

(** X6: When the store answers at least one row, the handler shows the query
    text and then exactly the rows the store answered. *)
Theorem rows_are_shown_as_returned
  (user_input raw : string) (query_embedding : option (list float))
  (rows : list row) (s s1 : @state float) :
  generate_sql_query W user_input s = (s1, Return (Some raw, query_embedding)) ->
  raw <> "" ->
  let sql := PyStr.strip (PyStr.re_sub_fence raw) in
  let shown := EvStWrite (UiText ("Generated SQL Query:" ++ nl ++ sql)) in
  PyStr.contains "SELECT" sql = true ->
  store_rows W (issued sql query_embedding default_top_k) = Some rows ->
  rows <> [] ->
  snd (search W user_input s) = Return tt /\
  ui (trace (fst (search W user_input s))) =
    (ui (trace s1) ++ [shown; EvStWrite (UiRows rows)])%list.
Proof.
  intros Hg Hraw sql shown Hgate Hrows Hne.
  pose proof (executor_exits W sql query_embedding default_top_k
                (log s1 [shown])) as Hx.
  cbv zeta in Hx. destruct Hx as (es & _ & _ & Hx).
  pose proof (ui_execute W sql query_embedding default_top_k (log s1 [shown]))
    as Hu.
  assert (Hnone : store_error W (issued sql query_embedding default_top_k) = None).
  { unfold store_error, store_rows in *.
    destruct (connect W) as [c|e]; [|discriminate].
    destruct (cur_execute W _ []) as [[rows'|e]|e]; try discriminate.
    reflexivity. }
  rewrite Hnone in Hx. destruct Hx as (rows' & Hr & Hres & _).
  assert (rows' = rows) as -> by congruence.
  rewrite search_run, Hg. cbv zeta.
  destruct raw as [|a q]; [congruence|].
  fold sql. rewrite Hgate. fold shown.
  destruct (execute_sql_query W sql query_embedding default_top_k _) as [s3 r].
  cbn [fst snd] in *. subst r.
  destruct rows as [|r0 rs]; [congruence|]. cbn [fst snd].
  split; [reflexivity|].
  rewrite trace_log, ui_app, Hu, trace_log, ui_app.
  cbn [ui filter is_ui app]. now rewrite <- app_assoc.
Qed.

(** X7: On the similarity branch the user is shown the template, placeholder
    and [LIMIT 5] included, whereas the store is sent the statement with the
    vector literal and [LIMIT 1]: the text shown is never the text
    executed. *)
Theorem similarity_search_shows_the_template
  (user_input : string) (x : float) (v : list float) (s : @state float) :
  classify user_input = SimilarityQuery ->
  embed_content W (Some "retrieval_query") user_input = Return (Some (x :: v)) ->
  let sent := "SELECT * FROM products ORDER BY embedding <=> "
              ++ embedding_str (x :: v) ++ " LIMIT 1;" in
  let template := "SELECT * FROM products ORDER BY embedding <=> %s LIMIT 5;" in
  (exists rest,
     ui (trace (fst (search W user_input s))) =
     (ui (trace s) ++
      EvStWrite (UiText ("Generated SQL Query:" ++ nl ++ template)) :: rest)%list) /\
  executed (trace (fst (search W user_input s))) =
    (executed (trace s) ++ statements W sent)%list /\
  sent <> template.
Proof.
  intros Hc He sent template. apply classify_similarity in Hc.
  split; [|split].
  - assert (Hg : generate_sql_query W user_input s =
                 (log s [EvEmbed (Some "retrieval_query") user_input],
                  Return (Some template, Some (x :: v)))).
    { rewrite (generate_similarity_run W _ _ Hc), get_text_embedding_run, He.
      reflexivity. }
    pose proof (ui_after_synthesis W user_input "S"
                  "ELECT * FROM products ORDER BY embedding <=> %s LIMIT 5;"
                  (Some (x :: v)) s _ Hg) as Hx.
    cbv zeta in Hx.
    replace (PyStr.strip (PyStr.re_sub_fence
               "SELECT * FROM products ORDER BY embedding <=> %s LIMIT 5;"))
      with template in Hx by (vm_compute; reflexivity).
    apply Hx. rewrite trace_log, ui_app. cbn. now rewrite app_nil_r.
  - rewrite (similarity_search_executed W _ (x :: v) s Hc He).
    cbn [issued]. now rewrite inject_similarity_template.
  - subst sent template. unfold embedding_str.
    cbn [append]. discriminate.
Qed.

End Display.

(** One row found: the query text, then the row. *)
Lemma rows_are_shown_as_returned_witness :
  let user_input := "list the product names" in
  let raw := "SELECT name FROM products;" in
  let rows : list row := [[SqlText "chair"]] in
  let W := sample_world (Return None) raw (Return Connection)
             (Return (Return rows)) in
  let s1 := log initial [EvGenerate (prompt user_input)] in
  let sql := PyStr.strip (PyStr.re_sub_fence raw) in
  let shown := EvStWrite (UiText ("Generated SQL Query:" ++ nl ++ sql)) in
  generate_sql_query W user_input initial = (s1, Return (Some raw, None)) /\
  raw <> "" /\
  PyStr.contains "SELECT" sql = true /\
  store_rows W (issued sql None default_top_k) = Some rows /\
  rows <> [] /\
  snd (search W user_input initial) = Return tt /\
  ui (trace (fst (search W user_input initial))) =
    (ui (trace s1) ++ [shown; EvStWrite (UiRows rows)])%list.
Proof.
  intros user_input raw rows W s1 sql shown.
  assert (Hraw : raw <> "") by discriminate.
  assert (Hrows : rows <> []) by discriminate.
  split; [reflexivity|]. split; [exact Hraw|]. split; [reflexivity|].
  split; [reflexivity|]. split; [exact Hrows|].
  exact (rows_are_shown_as_returned W user_input raw None rows initial s1
           eq_refl Hraw eq_refl eq_refl Hrows).
Defined.

(** A two-component embedding: the template is shown, the literal is sent. *)
Lemma similarity_search_shows_the_template_witness :
  let user_input := "find similar products to chair" in
  let W := sample_world (Return (Some [F_half; F_one])) ""
             (Return Connection) (Return (Return [])) in
  classify user_input = SimilarityQuery /\
  embed_content W (Some "retrieval_query") user_input
    = Return (Some [F_half; F_one]) /\
  executed (trace (fst (search W user_input initial))) =
    (executed (trace initial) ++
     statements W ("SELECT * FROM products ORDER BY embedding <=> "
                   ++ embedding_str [F_half; F_one] ++ " LIMIT 1;"))%list.
Proof.
  intros user_input W. split; [reflexivity|]. split; [reflexivity|].
  exact (proj1 (proj2 (similarity_search_shows_the_template W user_input
                         F_half [F_one] initial eq_refl eq_refl))).
Defined.

(** * Texts that pass unchanged, texts that are turned down *)

Section Texts.

Context {float : Type} `{PyFloat float} `{PyStr.Unicode}.
Variable W : World (float := float).

Lemma replace_absent (old new s : string) :
  old <> "" -> PyStr.contains old s = false -> PyStr.replace old new s = s.
Proof.
  intros Hold. destruct old as [|c0 old']; [congruence|].
  unfold PyStr.replace.
  induction s as [|c s IH]; [reflexivity|].
  rewrite contains_unfold. intros Hc.
  apply orb_false_iff in Hc as [Hs Hc].
  cbn [PyStr.replace_scan]. rewrite Hs. now rewrite (IH Hc).
Qed.

(** X8: A template without the placeholder ignores the embedding it is given:
    only the limit is rewritten, and with no [LIMIT 5] either the statement
    sent is the template itself. *)
Theorem embedding_ignored_without_placeholder
  (query : string) (v : list float) (top_k : Z) (s : @state float) :
  PyStr.contains "%s" query = false ->
  inject query v top_k =
    PyStr.replace "LIMIT 5" ("LIMIT " ++ str_int top_k) query /\
  (PyStr.contains "LIMIT 5" query = false ->
   inject query v top_k = query /\
   executed (trace (fst (execute_sql_query W query (Some v) top_k s))) =
     (executed (trace s) ++ statements W query)%list).
Proof.
  intros Hp.
  assert (E : inject query v top_k =
              PyStr.replace "LIMIT 5" ("LIMIT " ++ str_int top_k) query).
  { unfold inject. now rewrite (replace_absent "%s" _ query) by
      (assumption || discriminate). }
  split; [exact E|]. intros Hl.
  assert (E' : inject query v top_k = query).
  { rewrite E. apply replace_absent; [discriminate | exact Hl]. }
  split; [exact E'|].
  rewrite executed_execute. destruct v as [|x v]; [reflexivity|].
  cbn [issued]. now rewrite E'.
Qed.

(** X9: A keyword counts wherever it stands and however it is capitalised:
    inside a longer word, in capitals, amid any other text. *)
Theorem keyword_anywhere_is_similarity (pre word post keyword : string) :
  In keyword ["similar"; "like"; "related"; "matching"; "relevant"] ->
  PyStr.lower word = keyword ->
  classify (pre ++ word ++ post) = SimilarityQuery.
Proof. apply keyword_word_is_similarity. Qed.

Lemma re_sub_fence_absent (s : string) :
  PyStr.contains PyStr.fence s = false -> PyStr.re_sub_fence s = s.
Proof.
  unfold PyStr.re_sub_fence.
  induction s as [|c s IH]; [reflexivity|].
  rewrite contains_unfold. intros Hc.
  apply orb_false_iff in Hc as [Hs Hc].
  rewrite (scan_emit _ _ Hs). now rewrite (IH Hc).
Qed.

Lemma contains_strip_false (sub s : string) :
  PyStr.contains sub s = false -> PyStr.contains sub (PyStr.strip s) = false.
Proof.
  intros Hs. apply contains_not_occurs. intros Ho.
  apply occurs_strip, contains_occurs in Ho. congruence.
Qed.

(** An answer with no fence marker is cleaned by trimming alone. *)
Lemma cleaned_fence_free (text : string) :
  PyStr.contains "```" text = false -> cleaned text = PyStr.strip text.
Proof.
  intros Hf. unfold cleaned.
  rewrite re_sub_fence_absent.
  - apply strip_idempotent.
  - now apply contains_strip_false.
Qed.

(** X10: An answer with no fence marker is only trimmed: the text gated,
    shown and sent to the store is the answer without the white space at
    its two ends, be it a line break, a space or a no-break space, and it
    neither begins nor ends with white space. *)
Theorem fence_free_answer_is_only_trimmed
  (user_input text : string) (s : @state float) :
  classify user_input = StructuredQuery ->
  generate_content W (prompt user_input) = Return text ->
  PyStr.contains "```" text = false ->
  exists b1 b2 t,
    blank b1 /\ blank b2 /\ text = b1 ++ t ++ b2 /\ trimmed t /\
    cleaned text = t /\
    executed (trace (fst (search W user_input s))) =
      (executed (trace s) ++
       if PyStr.contains "SELECT" t then statements W t else [])%list /\
    (t <> "" ->
     exists rest,
       ui (trace (fst (search W user_input s))) =
       (ui (trace s) ++
        EvStWrite (UiText ("Generated SQL Query:" ++ nl ++ t)) :: rest)%list).
Proof.
  intros Hc Ht Hf. apply classify_structured in Hc.
  destruct (strip_spec text) as (b1 & b2 & Hb1 & Hb2 & E & Htrim).
  assert (Hg : generate_sql_query W user_input s =
               (log s [EvGenerate (prompt user_input)],
                Return (Some (PyStr.strip text), None))).
  { rewrite (generate_structured_run W _ _ Hc), Ht. reflexivity. }
  assert (Hcl : PyStr.strip (PyStr.re_sub_fence (PyStr.strip text))
                = PyStr.strip text) by exact (cleaned_fence_free text Hf).
  exists b1, b2, (PyStr.strip text).
  split; [exact Hb1|]. split; [exact Hb2|]. split; [exact E|].
  split; [exact Htrim|].
  split; [exact (cleaned_fence_free text Hf)|]. split.
  - rewrite (executed_after_synthesis W user_input _ None s _ Hg).
    + rewrite Hcl. now destruct (PyStr.strip text).
    + rewrite trace_log, executed_app. cbn. now rewrite app_nil_r.
  - intros Hne. revert Hg Hcl.
    destruct (PyStr.strip text) as [|a q]; [congruence|]. intros Hg Hcl.
    rewrite <- Hcl.
    apply (ui_after_synthesis W user_input a q None s _ Hg).
    rewrite trace_log, ui_app. cbn. now rewrite app_nil_r.
Qed.

Lemma lower_fixed_has_no_capital_s (s : string) :
  PyStr.lower s = s -> PyStr.all_chars not_capital_s s = true.
Proof.
  intros Hs. apply all_chars_weaken with (p := PyStr.not_upper).
  - intros c Hc. unfold not_capital_s.
    destruct (Ascii.eqb "S" c) eqn:E; [|reflexivity].
    apply Ascii.eqb_eq in E. subst c. discriminate.
  - rewrite <- Hs. apply lower_no_capital.
Qed.

Lemma all_chars_strip p (s : string) :
  PyStr.all_chars p s = true -> PyStr.all_chars p (PyStr.strip s) = true.
Proof.
  intros Hs. unfold PyStr.strip.
  destruct (lstrip_suffix s) as [ws1 E1].
  destruct (rstrip_prefix (PyStr.lstrip s)) as [ws2 E2].
  rewrite E1, all_chars_app in Hs. apply andb_true_iff in Hs as [_ Hs].
  rewrite E2, all_chars_app in Hs. now apply andb_true_iff in Hs as [Hs _].
Qed.

Lemma all_chars_erasure p (s r : string) :
  fence_erasure s r -> PyStr.all_chars p s = true -> PyStr.all_chars p r = true.
Proof.
  induction 1 as [|c s r _ _ IH|s r _ _ IH|s r _ IH]; intros Hs.
  - reflexivity.
  - cbn [PyStr.all_chars] in *. apply andb_true_iff in Hs as [Hc Hs].
    now rewrite Hc, IH.
  - rewrite all_chars_app in Hs. apply andb_true_iff in Hs as [_ Hs]. auto.
  - rewrite all_chars_app in Hs. apply andb_true_iff in Hs as [_ Hs]. auto.
Qed.

Lemma no_capital_s_no_select (s : string) :
  PyStr.all_chars not_capital_s s = true -> PyStr.contains "SELECT" s = false.
Proof.
  induction s as [|c s IH]; [reflexivity|].
  cbn [PyStr.all_chars]. intros Hs. apply andb_true_iff in Hs as [Hc Hs].
  rewrite contains_unfold, (IH Hs), orb_false_r.
  unfold not_capital_s in Hc. apply negb_true_iff in Hc.
  cbn [PyStr.startswith]. now rewrite Hc.
Qed.

(** X11: The gate sees capitals only: an answer written without capital letters,
    a valid [select] included, is turned down and nothing is executed. *)
Theorem lowercase_answer_is_rejected
  (user_input text : string) (s : @state float) :
  classify user_input = StructuredQuery ->
  generate_content W (prompt user_input) = Return text ->
  PyStr.lower text = text ->
  exists s',
    search W user_input s = (s', Return tt) /\
    store_calls (trace s') = store_calls (trace s) /\
    executed (trace s') = executed (trace s) /\
    ui (trace s') = (ui (trace s) ++ rejection text)%list.
Proof.
  intros Hc Ht Hl. apply (gate_rejects W _ _ _ Hc Ht).
  apply no_capital_s_no_select. unfold cleaned.
  apply all_chars_strip.
  apply (all_chars_erasure _ _ _ (re_sub_fence_erasure _)).
  apply all_chars_strip. now apply lower_fixed_has_no_capital_s.
Qed.

End Texts.

(** A statement of the language model's own, run with an embedding. *)
Lemma embedding_ignored_without_placeholder_witness :
  let W := sample_world (Return None) "" (Return Connection)
             (Return (Return [])) in
  let query := "SELECT name FROM products LIMIT 3;" in
  PyStr.contains "%s" query = false /\
  inject query [F_half; F_one] 7 = query /\
  executed (trace (fst (execute_sql_query W query (Some [F_half; F_one]) 7
                          initial)))
    = (executed (trace initial) ++ statements W query)%list.
Proof.
  intros W query. split; [reflexivity|].
  exact (proj2 (embedding_ignored_without_placeholder W query [F_half; F_one] 7
                  initial eq_refl) eq_refl).
Defined.

(** [LIKE] inside [unlikely], in capitals. *)
Lemma keyword_anywhere_is_similarity_witness :
  In "like" ["similar"; "like"; "related"; "matching"; "relevant"] /\
  PyStr.lower "LIKE" = "like" /\
  classify ("orders that are UN" ++ "LIKE" ++ "LY to ship") = SimilarityQuery.
Proof.
  assert (Hin : In "like" ["similar"; "like"; "related"; "matching"; "relevant"])
    by (right; left; reflexivity).
  split; [exact Hin|]. split; [reflexivity|].
  exact (keyword_anywhere_is_similarity "orders that are UN" "LIKE" "LY to ship"
           "like" Hin eq_refl).
Defined.

(** A plain answer between a no-break space and an em space. *)
Lemma fence_free_answer_is_only_trimmed_witness :
  let text := Utf8.of_bytes [194; 160] ++ "SELECT 1;"
              ++ Utf8.of_bytes [226; 128; 131] in
  let W := sample_world (Return None) text (Return Connection)
             (Return (Return [[SqlInt 1]])) in
  classify "count to one" = StructuredQuery /\
  generate_content W (prompt "count to one") = Return text /\
  PyStr.contains "```" text = false /\
  cleaned text = "SELECT 1;" /\
  executed (trace (fst (search W "count to one" initial))) = [("SELECT 1;", [])].
Proof.
  intros text W.
  destruct (fence_free_answer_is_only_trimmed W "count to one" text initial
              eq_refl eq_refl eq_refl)
    as (b1 & b2 & t & _ & _ & _ & _ & Hcl & Hex & _).
  split; [reflexivity|]. split; [reflexivity|]. split; [reflexivity|].
  split; [reflexivity|].
  rewrite Hex, <- Hcl. reflexivity.
Defined.

(** A valid statement in small letters is not executed. *)
Lemma lowercase_answer_is_rejected_witness :
  let text := "select name from products;" in
  let W := sample_world (Return None) text (Return Connection)
             (Return (Return [[SqlText "chair"]])) in
  classify "list the product names" = StructuredQuery /\
  generate_content W (prompt "list the product names") = Return text /\
  PyStr.lower text = text /\
  exists s',
    search W "list the product names" initial = (s', Return tt) /\
    store_calls (trace s') = store_calls (trace initial) /\
    executed (trace s') = executed (trace initial) /\
    ui (trace s') = (ui (trace initial) ++ rejection text)%list.
Proof.
  intros text W.
  split; [reflexivity|]. split; [reflexivity|]. split; [reflexivity|].
  exact (lowercase_answer_is_rejected W "list the product names" text initial
           eq_refl eq_refl eq_refl).
Defined.

(** * The ingestion job when a call fails *)

Section IngestionFailure.

Context {float : Type} `{PyFloat float} `{PyStr.Unicode}.
Variable W : World (float := float).

Lemma row_events_hold_no_commit (es : list (@event float)) :
  forallb is_row_event es = true ->
  (forall done, ~ In (EvCommit done) es) /\ ~ In EvClose es.
Proof.
  intros Hall.
  split; [intros done|]; intros Hin;
    apply (proj1 (forallb_forall _ _) Hall) in Hin; discriminate.
Qed.

(** No call of the job raises exactly when the job has no error. *)
Lemma ingestion_error_none :
  ingestion_error W = None <-> exists rows, ingestion_succeeds W rows.
Proof.
  unfold ingestion_error, ingestion_succeeds. split.
  - destruct (connect W) as [c|e]; [|discriminate].
    destruct (cur_execute W select_products []) as [p|e]; [|discriminate].
    destruct (products W) as [rows|e]; [|discriminate].
    destruct (rows_error W rows) eqn:Er; [discriminate|].
    destruct (commit W) as [[]|e]; [|discriminate].
    intros _. exists rows. apply rows_error_none in Er.
    split; [now exists c|]. split; [now exists p|]. auto.
  - intros (rows & (c & ->) & (p & ->) & -> & Hok & ->).
    apply rows_error_none in Hok. now rewrite Hok.
Qed.

(** X12: The job commits all or nothing.  It returns exactly when no call
    raises, and then it has committed once, after the last row, and closed
    the cursor and the connection; as soon as a call raises, the connection,
    the [SELECT], the fetch, the embedding or the write of a row, or the
    commit itself, the script ends with that error, nothing is committed
    and the connection is not closed. *)
Theorem ingestion_commits_all_or_nothing (s : @state float) :
  (ingestion_error W = None <-> exists rows, ingestion_succeeds W rows) /\
  exists es,
    trace (fst (ingest W s)) = (trace s ++ es)%list /\
    match ingestion_error W with
    | None =>
        snd (ingest W s) = Return tt /\
        exists es0,
          es = (es0 ++ [EvCommit true; EvCursorClose; EvClose])%list /\
          ~ In (EvCommit true) es0 /\ ~ In EvClose es0
    | Some e =>
        snd (ingest W s) = Raise e /\
        ~ In (EvCommit true) es /\ ~ In EvClose es
    end.
Proof.
  split; [exact ingestion_error_none|].
  rewrite ingest_run. unfold ingestion_error.
  destruct (connect W) as [c|e].
  - cbv zeta.
    destruct (cur_execute W select_products []) as [p|e].
    + destruct (products W) as [rows|e].
      * match goal with
        | |- context [for_each rows (ingest_row W) ?s0] =>
            destruct (for_each_rows_any W rows s0)
              as (vectors & es & Hf & _ & _ & _ & Hall & _ & Hend);
            destruct (for_each rows (ingest_row W) s0) as [s2 r]
        end.
        cbn [fst snd] in *. subst s2 r.
        destruct (row_events_hold_no_commit es Hall) as [Hc Hcl].
        destruct (rows_error W rows) as [e|].
        -- exists ([EvConnect true; EvExecute select_products []; EvFetchall]
                   ++ es)%list.
           cbn [fst snd]. rewrite !trace_log. cbn [trace].
           split; [now rewrite <- !app_assoc|]. split; [reflexivity|].
           split; intros Hin; apply in_app_or in Hin as [Hin|Hin];
             try (now apply (Hc true)); auto;
             cbn in Hin; intuition discriminate.
        -- destruct (commit W) as [[]|e].
           ++ exists ([EvConnect true; EvExecute select_products []; EvFetchall]
                      ++ es ++ [EvCommit true; EvCursorClose; EvClose])%list.
              cbn [fst snd]. rewrite !trace_log. cbn [trace].
              split; [now rewrite <- !app_assoc|]. split; [reflexivity|].
              exists ([EvConnect true; EvExecute select_products []; EvFetchall]
                      ++ es)%list.
              split; [now rewrite <- !app_assoc|].
              split; intros Hin; apply in_app_or in Hin as [Hin|Hin];
                try (now apply (Hc true)); auto;
                cbn in Hin; intuition discriminate.
           ++ exists ([EvConnect true; EvExecute select_products []; EvFetchall]
                      ++ es ++ [EvCommit false])%list.
              cbn [fst snd]. rewrite !trace_log. cbn [trace].
              split; [now rewrite <- !app_assoc|]. split; [reflexivity|].
              split; intros Hin; apply in_app_or in Hin as [Hin|Hin];
                try (cbn in Hin; intuition discriminate);
                apply in_app_or in Hin as [Hin|Hin];
                try (now apply (Hc true)); auto;
                cbn in Hin; intuition discriminate.
      * cbn [fst snd]. rewrite trace_log. cbn [trace].
        exists [EvConnect true; EvExecute select_products []; EvFetchall].
        split; [now rewrite <- !app_assoc|]. split; [reflexivity|].
        split; intros Hin; cbn in Hin; intuition discriminate.
    + cbn [fst snd trace]. eexists. split; [reflexivity|].
      split; [reflexivity|].
      split; intros Hin; cbn in Hin; intuition discriminate.
  - cbn [fst snd]. eexists. split; [apply trace_log|]. split; [reflexivity|].
    split; intros Hin; cbn in Hin; intuition discriminate.
Qed.


End IngestionFailure.

(** Two rows and a store that accepts everything: the job returns, having
    committed and closed last.  The same store refusing the commit: the job
    ends with the error of the commit, with nothing committed. *)
Lemma ingestion_commits_all_or_nothing_witness :
  let rows := [(1%Z, "chair"); (2%Z, "desk")] in
  let W := ingestion_world "lamp" rows in
  let W' : World (float := sample_float) :=
    {| embed_content := embed_content W;
       generate_content := generate_content W;
       connect := connect W;
       cur_execute := cur_execute W;
       products := products W;
       commit := Raise connection_refused |} in
  (snd (ingest W initial) = Return tt /\
   exists es0,
     trace (fst (ingest W initial)) =
       (es0 ++ [EvCommit true; EvCursorClose; EvClose])%list /\
     ~ In (EvCommit true) es0 /\ ~ In EvClose es0) /\
  (snd (ingest W' initial) = Raise connection_refused /\
   ~ In (EvCommit true) (trace (fst (ingest W' initial))) /\
   ~ In EvClose (trace (fst (ingest W' initial)))).
Proof.
  intros rows W W'. split.
  - destruct (proj2 (ingestion_commits_all_or_nothing W initial))
      as (es & Ht & Hm).
    change (ingestion_error W) with (@None exn) in Hm.
    destruct Hm as (Hr & es0 & -> & Hc & Hcl).
    split; [exact Hr|]. exists es0. split; [exact Ht|]. split; assumption.
  - destruct (proj2 (ingestion_commits_all_or_nothing W' initial))
      as (es & Ht & Hm).
    change (ingestion_error W') with (Some connection_refused) in Hm.
    destruct Hm as (Hr & Hc & Hcl).
    split; [exact Hr|]. rewrite Ht. split; assumption.
Defined.


(** * An embedding without components *)

Section EmptyEmbedding.

Context {float : Type} `{PyFloat float} `{PyStr.Unicode}.
Variable W : World (float := float).

(** X14: Synthesis tests the embedding against [None], the executor tests its
    truth value: an embedding with no component passes the first test and
    fails the second, so the search goes on and the store is sent the
    template with its placeholder. *)
Theorem empty_embedding_reaches_the_store_unsubstituted
  (user_input : string) (s : @state float) :
  classify user_input = SimilarityQuery ->
  embed_content W (Some "retrieval_query") user_input = Return (Some []) ->
  fst (generate_sql_query W user_input s)
    = log s [EvEmbed (Some "retrieval_query") user_input] /\
  snd (generate_sql_query W user_input s)
    = Return (Some "SELECT * FROM products ORDER BY embedding <=> %s LIMIT 5;",
              Some []) /\
  executed (trace (fst (search W user_input s))) =
    (executed (trace s) ++
     statements W "SELECT * FROM products ORDER BY embedding <=> %s LIMIT 5;")%list.
Proof.
  intros Hc He. apply classify_similarity in Hc.
  rewrite (generate_similarity_run W _ _ Hc), get_text_embedding_run, He.
  split; [reflexivity|]. split; [reflexivity|].
  now rewrite (similarity_search_executed W _ [] s Hc He).
Qed.

End EmptyEmbedding.

(** The service answers an embedding with no component. *)
Lemma empty_embedding_reaches_the_store_unsubstituted_witness :
  let user_input := "find similar products to chair" in
  let W := sample_world (Return (Some [])) "" (Return Connection)
             (Raise syntax_error) in
  classify user_input = SimilarityQuery /\
  embed_content W (Some "retrieval_query") user_input = Return (Some []) /\
  executed (trace (fst (search W user_input initial))) =
    (executed (trace initial) ++
     statements W "SELECT * FROM products ORDER BY embedding <=> %s LIMIT 5;")%list.
Proof.
  intros user_input W. split; [reflexivity|]. split; [reflexivity|].
  exact (proj2 (proj2 (empty_embedding_reaches_the_store_unsubstituted W
                         user_input initial eq_refl eq_refl))).
Defined.
